(** * format_symphony_user: CSV rows to SirsiDynix Symphony LDUSER records

    A shallow embedding of [format_symphony_user.py] and the properties of
    its record transformation engine: the field transformers
    ([transform_zip], [transform_phone], [get_grad_year]), the record
    writer ([write_value]), the per-row loop of [main] and the retention
    pass over the [generated_ascii] directory.

    Python [str] values are modelled as [string] (characters restricted to
    the code points below 256); Python [int] values as [Z]. *)

From Stdlib Require Import ZArith QArith Ascii.
From stdpp Require Import base option list sorting strings pretty gmap.

Local Open Scope Z_scope.

(** ** Python string primitives used by the script *)

Module PyStr.

(** The line feed character, written ['\n'] in the script. *)
Definition LF : ascii := Ascii.ascii_of_nat 10.
Definition nl : string := String LF "".

(** [str.isspace] on one character, for code points below 256:
    TAB, LF, VT, FF, CR, the separators FS GS RS US, space, NEL and
    the no-break space. *)
Definition isspace (c : ascii) : bool :=
  let n := Ascii.N_of_ascii c in
  ((9 <=? n) && (n <=? 13) || (28 <=? n) && (n <=? 32)
   || (n =? 133) || (n =? 160))%N.

(** [s.rstrip()]: drop the trailing run of whitespace characters. *)
Fixpoint rstrip (s : string) : string :=
  match s with
  | "" => ""
  | String c s' =>
      match rstrip s' with
      | "" => if isspace c then "" else String c ""
      | r => String c r
      end
  end.

(** [s.startswith(p)]. *)
Fixpoint startswith (p s : string) : bool :=
  match p, s with
  | "", _ => true
  | String _ _, "" => false
  | String a p', String b s' => Ascii.eqb a b && startswith p' s'
  end.

(** [x in s]: [x] occurs in [s] as a contiguous substring. *)
Fixpoint contains (x s : string) : bool :=
  startswith x s ||
  match s with
  | "" => false
  | String _ s' => contains x s'
  end.

(** [s.endswith(suf)]. *)
Fixpoint endswith (suf s : string) : bool :=
  String.eqb s suf ||
  match s with
  | "" => false
  | String _ s' => endswith suf s'
  end.

(** [s.split(sep)] for a one-character separator: the pieces between
    the occurrences of [sep], never the empty list. *)
Fixpoint split (sep : ascii) (s : string) : list string :=
  match s with
  | "" => [""]
  | String c s' =>
      if Ascii.eqb c sep then "" :: split sep s'
      else match split sep s' with
           | [] => [String c ""]
           | p :: ps => String c p :: ps
           end
  end.

(** [s.replace(old, new)] for a one-character [old]: every occurrence
    of [old] becomes [new]. *)
Fixpoint replace (old : ascii) (new : string) (s : string) : string :=
  match s with
  | "" => ""
  | String c s' =>
      if Ascii.eqb c old then new +:+ replace old new s'
      else String c (replace old new s')
  end.

(** [s[start:]] with Python's index normalisation: a negative [start]
    counts from the end, and the result is clipped to the string. *)
Fixpoint drop (n : nat) (s : string) : string :=
  match n, s with
  | O, _ => s
  | S _, "" => ""
  | S n', String _ s' => drop n' s'
  end.

Definition slice_from (start : Z) (s : string) : string :=
  let len := Z.of_nat (String.length s) in
  let start' := if start <? 0 then Z.max 0 (start + len)
                else Z.min start len in
  drop (Z.to_nat start') s.

(** Membership of a character in a string. *)
Fixpoint has_char (c : ascii) (s : string) : bool :=
  match s with
  | "" => false
  | String a s' => Ascii.eqb a c || has_char c s'
  end.

(** Every character of the string satisfies [p]. *)
Fixpoint all_chars (p : ascii -> bool) (s : string) : bool :=
  match s with
  | "" => true
  | String a s' => p a && all_chars p s'
  end.

(** The number of occurrences of a character: [s.count(c)]. *)
Fixpoint count (c : ascii) (s : string) : nat :=
  match s with
  | "" => O
  | String a s' => ((if Ascii.eqb a c then 1 else 0) + count c s')%nat
  end.

Definition isdigit (c : ascii) : bool :=
  let n := Ascii.N_of_ascii c in ((48 <=? n) && (n <=? 57))%N.

(** [s.lower()] for code points below 256: the letters A to Z and the
    capital letters of Latin-1 (the multiplication sign is not one) move
    to their small forms, 32 code points up. *)
Definition lower_char (c : ascii) : ascii :=
  let n := Ascii.N_of_ascii c in
  if ((65 <=? n) && (n <=? 90)
      || (192 <=? n) && (n <=? 222) && negb (n =? 215))%N
  then Ascii.ascii_of_N (n + 32)
  else c.

Fixpoint lower (s : string) : string :=
  match s with
  | "" => ""
  | String c s' => String (lower_char c) (lower s')
  end.

(** [c * n]: the character [c], [n] times. *)
Fixpoint repeat (c : ascii) (n : nat) : string :=
  match n with
  | O => ""
  | S n' => String c (repeat c n')
  end.

End PyStr.

(** ** Field transformers *)

(** [transform_zip]: get rid of the extended format ZIP code. *)
Definition transform_zip (number : string) : string :=
  let zip_code := hd "" (PyStr.split "-" number) in
  zip_code.

(** [transform_phone]: expected format (555)555-5555, changed to spaces
    only. *)
Definition transform_phone (number : string) : string :=
  let phone :=
    PyStr.replace "-" " " (PyStr.replace ")" " " (PyStr.replace "(" "" number)) in
  phone.

(** ** Exceptions and the two effect layers

    Code that only reads its arguments is a computation that may raise
    ([outcome]); code that also appends to the open output file threads
    the text written so far ([IO]). Text already written stays in the
    file when a later step raises. *)

Inductive exn : Type :=
  | KeyError (key : string)
  | NoOptionError (option : string)
  | ValueError
  | OSError.

Inductive outcome (A : Type) : Type :=
  | Ok (a : A)
  | Raise (e : exn).
Arguments Ok {A} a.
Arguments Raise {A} e.

Global Instance outcome_ret : MRet outcome := fun A a => Ok a.
Global Instance outcome_bind : MBind outcome := fun A B f m =>
  match m with
  | Ok a => f a
  | Raise e => Raise e
  end.

Record IO (A : Type) : Type := mkIO { run : string -> outcome A * string }.
Arguments mkIO {A} run.
Arguments run {A} _ _.

Global Instance IO_ret : MRet IO := fun A a => mkIO (fun file => (Ok a, file)).
Global Instance IO_bind : MBind IO := fun A B f m =>
  mkIO (fun file =>
    match run m file with
    | (Ok a, file') => run (f a) file'
    | (Raise e, file') => (Raise e, file')
    end).

(** A computation that does not touch the file. *)
Definition lift {A : Type} (m : outcome A) : IO A :=
  mkIO (fun file => (m, file)).

(** [file.write(text)] on the open output file. The file is opened with
    [newline='\n'], so the text is appended as it is. A write the system
    refuses makes the script print a message and exit; the model covers
    the runs in which the writes go through. *)
Definition file_write (text : string) : IO unit :=
  mkIO (fun file => (Ok tt, file +:+ text)).

(** ** Python [int(str)] and [str(int)] *)

Module PyInt.

(** The characters [int] skips around a numeral. Below 128 these are the
    whitespace of C: TAB, LF, VT, FF, CR and the space, so the separators
    FS GS RS US are not skipped; above, the whitespace of [str.isspace],
    which below 256 is NEL and the no-break space. *)
Definition isspace (c : ascii) : bool :=
  let n := Ascii.N_of_ascii c in
  ((9 <=? n) && (n <=? 13) || (n =? 32) || (n =? 133) || (n =? 160))%N.

Fixpoint lstrip (s : string) : string :=
  match s with
  | "" => ""
  | String c s' => if isspace c then lstrip s' else s
  end.

Fixpoint rstrip (s : string) : string :=
  match s with
  | "" => ""
  | String c s' =>
      match rstrip s' with
      | "" => if isspace c then "" else String c ""
      | r => String c r
      end
  end.

Definition strip (s : string) : string := rstrip (lstrip s).

(** The limit on the digits of a numeral that [int] reads or [str]
    writes: [sys.int_info.default_max_str_digits] of the interpreters that
    limit the conversion between integers and strings. The model follows
    an interpreter with this default. *)
Definition max_str_digits : nat := 4300%nat.

(** The digits of a numeral; underscores do not count. *)
Fixpoint digit_count (s : string) : nat :=
  match s with
  | "" => O
  | String c s' => ((if PyStr.isdigit c then 1 else 0) + digit_count s')%nat
  end.

(** The decimal digits of a number that is not negative, counted by
    dividing by ten, up to [fuel] of them; zero has none. *)
Fixpoint digits_upto (fuel : nat) (n : Z) : nat :=
  match fuel with
  | O => O
  | S fuel' => if n <=? 0 then O else S (digits_upto fuel' (n / 10))
  end.

(** [n] has more decimal digits than the limit; the sign does not
    count. *)
Definition too_long (n : Z) : bool :=
  (max_str_digits <? digits_upto (S max_str_digits) (Z.abs n))%nat.

(** What the digit scanner has just read. *)
Inductive last_read : Type := Nothing | Digit | Underscore.

Definition digit_value (c : ascii) : Z :=
  Z.of_N (Ascii.N_of_ascii c) - 48.

(** Decimal digits, where single underscores may separate digits. *)
Fixpoint scan (acc : Z) (last : last_read) (s : string) : option Z :=
  match s with
  | "" => match last with Digit => Some acc | _ => None end
  | String c s' =>
      if PyStr.isdigit c then scan (10 * acc + digit_value c) Digit s'
      else if Ascii.eqb c "_"
      then match last with Digit => scan acc Underscore s' | _ => None end
      else None
  end.

(** The value of a numeral without its sign, when it has no more digits
    than the limit. *)
Definition numeral (r : string) : option Z :=
  if (max_str_digits <? digit_count r)%nat then None else scan 0 Nothing r.

(** [int(s)] in base 10: surrounding whitespace is ignored, one sign
    may precede the digits; [None] stands for [ValueError]. *)
Definition parse (s : string) : option Z :=
  match strip s with
  | String "+" r => numeral r
  | String "-" r => Z.opp <$> numeral r
  | t => numeral t
  end.

(** The decimal numeral of an integer [n]. *)
Definition to_str (n : Z) : string := pretty n.

(** The number a string of decimal digits denotes, most significant
    digit first; used to state what [parse] returns on such strings. *)
Fixpoint decimal_from (acc : Z) (s : string) : Z :=
  match s with
  | "" => acc
  | String c s' => decimal_from (10 * acc + digit_value c) s'
  end.

Definition decimal_value (s : string) : Z := decimal_from 0 s.

End PyInt.

Definition int (s : string) : outcome Z :=
  match PyInt.parse s with
  | Some n => Ok n
  | None => Raise ValueError
  end.

(** [str(n)] for an integer [n]: its decimal numeral, or [ValueError]
    when that has more digits than the limit. *)
Definition str (n : Z) : outcome string :=
  if PyInt.too_long n then Raise ValueError else Ok (PyInt.to_str n).

(** [get_grad_year]: use the provided grad year if available, otherwise
    approximate it from the grade level and the current year, here the
    argument [curr_year] (the script reads it from the clock). *)
Definition get_grad_year (curr_year : Z) (year grade : string) : outcome string :=
  if negb (String.eqb year "") then
    Ok year
  else
    g ← int grade;
    let years_to_grad := 12 - g in
    let year := years_to_grad + curr_year in
    str year.

(** ** Record writer *)

(** [write_value]: write one ASCII formatted value. *)
Definition write_value (field value : string) : IO unit :=
  let value := PyStr.rstrip value in
  file_write ("." +:+ field +:+ ".");;
  let markers := ["_BEGIN"; "_END"] in
  if existsb (fun x => PyStr.contains x field) markers then
    file_write PyStr.nl
  else
    file_write ("   " +:+ "|" +:+ "a" +:+ value +:+ PyStr.nl).

(** ** Dictionaries that keep insertion order

    [OrderedDict] and, for the retention pass, the plain [dict]: a
    list of items in insertion order; setting a key that is present
    replaces its value in place. *)

Fixpoint dict_set {V : Type} (k : string) (v : V) (d : list (string * V))
  : list (string * V) :=
  match d with
  | [] => [(k, v)]
  | (k', v') :: d' =>
      if String.eqb k' k then (k', v) :: d' else (k', v') :: dict_set k v d'
  end.

Definition OrderedDict {V : Type} (items : list (string * V)) : list (string * V) :=
  fold_left (fun d kv => dict_set (fst kv) (snd kv) d) items [].

Fixpoint dict_get {V : Type} (k : string) (d : list (string * V)) : option V :=
  match d with
  | [] => None
  | (k', v) :: d' => if String.eqb k' k then Some v else dict_get k d'
  end.

(** ** The per-row loop of [main] *)

(** [row[key]] on a row of [csv.DictReader]: a dict from the column
    names of the header to the cells of the row. *)
Definition row_get (row : gmap string string) (key : string) : outcome string :=
  match row !! key with
  | Some v => Ok v
  | None => Raise (KeyError key)
  end.

(** [config.get('data', option)]. The configuration is one that has its
    [data] section and whose values interpolate: the map gives, for an
    option as the script names it, the value [ConfigParser.get] returns
    after interpolation. For an option the section does not have, [get]
    raises [NoOptionError] with the name in small letters, as
    [ConfigParser] keeps it. A file without the [data] section
    ([NoSectionError]) or with a value that does not interpolate, such as
    a lone percent sign, is not a configuration of this model. *)
Definition config_get (config : gmap string string) (option : string) : outcome string :=
  match config !! option with
  | Some v => Ok v
  | None => Raise (NoOptionError (PyStr.lower option))
  end.

Definition document_header : string :=
  "*** DOCUMENT BOUNDARY ***" +:+ PyStr.nl +:+ "FORM=LDUSER" +:+ PyStr.nl.

(** The [OrderedDict] literal of [main]; its items are evaluated in
    source order. *)
Definition ascii_record (config row : gmap string string)
    (user_id grad_year zip_code phone_number : string)
  : outcome (list (string * string)) :=
  routing_flag ← config_get config "USER_ROUTING_FLAG";
  first_name ← row_get row "first_name";
  last_name ← row_get row "last_name";
  name_dsp_pref ← config_get config "USER_NAME_DSP_PREF";
  birthdate ← row_get row "birthdate";
  library ← config_get config "USER_LIBRARY";
  profile ← config_get config "USER_PROFILE";
  access ← config_get config "USER_ACCESS";
  environment ← config_get config "USER_ENVIRONMENT";
  category1 ← config_get config "USER_CATEGORY1";
  category11 ← config_get config "USER_CATEGORY11";
  expire_day ← config_get config "expire_day";
  status ← config_get config "USER_STATUS";
  street ← row_get row "street";
  city ← row_get row "city";
  state ← row_get row "state";
  email ← row_get row "email";
  notify_via ← config_get config "NOTIFY_VIA";
  chg_hist_rule ← config_get config "USER_CHG_HIST_RULE";
  Ok (OrderedDict [
    ("USER_ID", user_id);
    ("USER_ROUTING_FLAG", routing_flag);
    ("USER_FIRST_NAME", first_name);
    ("USER_LAST_NAME", last_name);
    ("USER_NAME_DSP_PREF", name_dsp_pref);
    ("USER_BIRTH_DATE", birthdate);
    ("USER_LIBRARY", library);
    ("USER_PROFILE", profile);
    ("USER_PIN", PyStr.slice_from (-4) user_id);
    ("USER_ACCESS", access);
    ("USER_ENVIRONMENT", environment);
    ("USER_CATEGORY1", category1);
    ("USER_CATEGORY11", category11);
    ("USER_CATEGORY12", grad_year);
    ("USER_PRIV_EXPIRES", grad_year +:+ expire_day);
    ("USER_STATUS", status);
    ("USER_MAILINGADDR", "1");
    ("USER_ADDR1_BEGIN", "");
    ("STREET", street);
    ("CITY/STATE", city +:+ " " +:+ state);
    ("ZIP", zip_code);
    ("PHONE", phone_number);
    ("EMAIL", email);
    ("USER_ADDR1_END", "");
    ("USER_XINFO_BEGIN", "");
    ("NOTIFY_VIA", notify_via);
    ("USER_XINFO_END", "");
    ("USER_CHG_HIST_RULE", chg_hist_rule)
  ]).

(** The modified values computed at the top of the loop body. *)
Definition modified_values (config : gmap string string) (curr_year : Z)
    (row : gmap string string) : outcome (string * string * string * string) :=
  zip ← row_get row "zip";
  let zip_code := transform_zip zip in
  phone ← row_get row "phone_number";
  let phone_number := transform_phone phone in
  year ← row_get row "grad_year";
  grade ← row_get row "grade";
  grad_year ← get_grad_year curr_year year grade;
  id_prefix ← config_get config "id_prefix";
  student_id ← row_get row "student_id";
  let user_id := id_prefix +:+ student_id in
  Ok (user_id, grad_year, zip_code, phone_number).

(** The record built for one row (the Record Builder). *)
Definition build_record (config : gmap string string) (curr_year : Z)
    (row : gmap string string) : outcome (list (string * string)) :=
  '(user_id, grad_year, zip_code, phone_number) ← modified_values config curr_year row;
  ascii_record config row user_id grad_year zip_code phone_number.

(** [for field, value in ascii_record.items(): write_value(...)]. *)
Fixpoint write_items (items : list (string * string)) : IO unit :=
  match items with
  | [] => mret tt
  | (field, value) :: rest => write_value field value;; write_items rest
  end.

(** One iteration of the loop over the CSV rows. *)
Definition process_row (config : gmap string string) (curr_year : Z)
    (row : gmap string string) : IO unit :=
  '(user_id, grad_year, zip_code, phone_number) ← lift (modified_values config curr_year row);
  file_write document_header;;
  record ← lift (ascii_record config row user_id grad_year zip_code phone_number);
  write_items record;;
  file_write PyStr.nl.

(** [for row in reader: ...]. *)
Fixpoint convert (config : gmap string string) (curr_year : Z)
    (rows : list (gmap string string)) : IO unit :=
  match rows with
  | [] => mret tt
  | row :: rest => process_row config curr_year row;; convert config curr_year rest
  end.

(** ** Retention pass over the [generated_ascii] directory *)

(** The timestamps of [os.stat]; floats in the script, rationals here.
    [st_birthtime] is absent on platforms that do not record it. *)
Record stat_result : Type := mk_stat {
  st_ctime : Q;
  st_birthtime : option Q;
  st_mtime : Q
}.

(** [creation_date]: the date a file was created, falling back to when
    it was last modified. [windows] is [platform.system() == 'Windows']. *)
Definition creation_date (windows : bool) (st : stat_result) : Q :=
  if windows then st_ctime st
  else match st_birthtime st with
       | Some t => t
       | None => st_mtime st
       end.

(** [int(x)] for a float: truncation toward zero. *)
Definition int_of_float (x : Q) : Z := Z.quot (Qnum x) (Zpos (Qden x)).

(** A directory: the names [os.listdir] returns, in its order, each with
    the [os.stat] of the file. *)
Abbreviation directory := (list (string * stat_result)).

(** [report_dates]: dict of report files and created timestamp. *)
Definition report_dates (windows : bool) (report_dir : directory)
  : list (string * Z) :=
  fold_left
    (fun report_dates entry =>
       let report := fst entry in
       if PyStr.endswith ".txt" report then
         let date := int_of_float (creation_date windows (snd entry)) in
         dict_set report date report_dates
       else report_dates)
    report_dir [].

(** [sorted(items, reverse=True, key=operator.itemgetter(1))]: a stable
    sort by descending value; items with equal values keep their order. *)
Fixpoint insert_desc (x : string * Z) (l : list (string * Z)) : list (string * Z) :=
  match l with
  | [] => [x]
  | y :: l' => if snd x <? snd y then y :: insert_desc x l' else x :: l
  end.

Definition sorted_desc (items : list (string * Z)) : list (string * Z) :=
  foldr insert_desc [] items.

(** [os.remove(p)] for a file of the directory. [removable] tells which
    files the system lets the script delete; on the others, and on names
    that are not there, it raises [OSError] and changes nothing. *)
Definition os_remove (removable : string -> bool) (name : string) (d : directory)
  : outcome unit * directory :=
  if removable name && existsb (String.eqb name) (fst <$> d)
  then (Ok tt, filter (fun entry => fst entry ≠ name) d)
  else (Raise OSError, d).

(** [try: os.remove(p) except (IOError, OSError): pass]. *)
Definition try_remove (removable : string -> bool) (d : directory) (x : string * Z)
  : directory :=
  match os_remove removable (fst x) d with
  | (Ok _, d') => d'
  | (Raise _, d') => d'
  end.

(** The files the pass decides to delete: [sorted_r[10:]]. *)
Definition retention_doomed (windows : bool) (d : directory) : list (string * Z) :=
  let r := report_dates windows d in
  let sorted_r := sorted_desc r in
  skipn 10 sorted_r.

(** The files the pass keeps: [sorted_r[:10]]. *)
Definition retention_kept (windows : bool) (d : directory) : list (string * Z) :=
  firstn 10 (sorted_desc (report_dates windows d)).

(** Only keep the latest 10 reports: the directory after the pass. *)
Definition retention (windows : bool) (removable : string -> bool) (d : directory)
  : directory :=
  fold_left (try_remove removable) (retention_doomed windows d) d.

(** ** Vocabulary of the statements *)

(** The tag has a marker somewhere in its name: the test of
    [write_value], [any(x in field for x in markers)]. *)
Definition has_marker (field : string) : bool :=
  PyStr.contains "_BEGIN" field || PyStr.contains "_END" field.

(** The tag name ends with a begin or end suffix. *)
Definition ends_with_marker (field : string) : bool :=
  PyStr.endswith "_BEGIN" field || PyStr.endswith "_END" field.

Fixpoint last_char (s : string) : option ascii :=
  match s with
  | "" => None
  | String c "" => Some c
  | String _ s' => last_char s'
  end.

(** The line of the output file for one field of a record. *)
Definition field_line (field value : string) : string :=
  "." +:+ field +:+ "." +:+
  (if has_marker field then PyStr.nl
   else "   |a" +:+ PyStr.rstrip value +:+ PyStr.nl).

(** The lines of a record, in the order of its fields. *)
Fixpoint record_text (record : list (string * string)) : string :=
  match record with
  | [] => ""
  | (field, value) :: rest => field_line field value +:+ record_text rest
  end.

(** A record as it stands in the output file: the document boundary
    line, the form line, the record and one empty line. *)
Definition record_block (record : list (string * string)) : string :=
  "*** DOCUMENT BOUNDARY ***" +:+ PyStr.nl +:+ "FORM=LDUSER" +:+ PyStr.nl +:+
  record_text record +:+ PyStr.nl.

Fixpoint blocks_text (records : list (list (string * string))) : string :=
  match records with
  | [] => ""
  | record :: rest => record_block record +:+ blocks_text rest
  end.

(** The tags of a record, in the order of the [OrderedDict] literal. *)
Definition record_tags : list string := [
  "USER_ID"; "USER_ROUTING_FLAG"; "USER_FIRST_NAME"; "USER_LAST_NAME";
  "USER_NAME_DSP_PREF"; "USER_BIRTH_DATE"; "USER_LIBRARY"; "USER_PROFILE";
  "USER_PIN"; "USER_ACCESS"; "USER_ENVIRONMENT"; "USER_CATEGORY1";
  "USER_CATEGORY11"; "USER_CATEGORY12"; "USER_PRIV_EXPIRES"; "USER_STATUS";
  "USER_MAILINGADDR"; "USER_ADDR1_BEGIN"; "STREET"; "CITY/STATE"; "ZIP";
  "PHONE"; "EMAIL"; "USER_ADDR1_END"; "USER_XINFO_BEGIN"; "NOTIFY_VIA";
  "USER_XINFO_END"; "USER_CHG_HIST_RULE"
].

(** The required columns of the CSV file, from the module docstring. *)
Definition required_columns : list string := [
  "student_id"; "first_name"; "last_name"; "birthdate"; "grade"; "grad_year";
  "street"; "city"; "state"; "zip"; "email"; "phone_number"
].

(** The options of the [data] section that [main] reads. *)
Definition data_options : list string := [
  "id_prefix"; "USER_ROUTING_FLAG"; "USER_NAME_DSP_PREF"; "USER_LIBRARY";
  "USER_PROFILE"; "USER_ACCESS"; "USER_ENVIRONMENT"; "USER_CATEGORY1";
  "USER_CATEGORY11"; "expire_day"; "USER_STATUS"; "NOTIFY_VIA";
  "USER_CHG_HIST_RULE"
].

Definition has_keys (m : gmap string string) (keys : list string) : Prop :=
  Forall (fun k => is_Some (m !! k)) keys.

(** When the row gives no graduation year, one can be derived in the
    year [curr_year]: [int] reads the grade, and the year derived from it
    is within the limit of [str]. *)
Definition year_derivable (curr_year : Z) (row : gmap string string) : Prop :=
  row !! "grad_year" = Some "" →
  ∃ grade g, row !! "grade" = Some grade ∧ PyInt.parse grade = Some g
             ∧ PyInt.too_long (12 - g + curr_year) = false.

(** A directory entry whose name has the suffix of the reports. *)
Definition is_report (entry : string * stat_result) : Prop :=
  PyStr.endswith ".txt" (fst entry) = true.

Global Instance is_report_dec (entry : string * stat_result) :
  Decision (is_report entry).
Proof. unfold is_report. apply _. Defined.

(** A directory entry with its timestamp in whole seconds. *)
Definition stamped (windows : bool) (entry : string * stat_result) : string * Z :=
  (fst entry, int_of_float (creation_date windows (snd entry))).

(** [x] is at least as recent as [y]. *)
Definition not_older (x y : string * Z) : Prop := snd y ≤ snd x.

(** ** Sample data *)

Definition sample_config : gmap string string := list_to_map [
  ("id_prefix", "S"); ("USER_ROUTING_FLAG", "Y"); ("USER_NAME_DSP_PREF", "0");
  ("USER_LIBRARY", "HS"); ("USER_PROFILE", "STUDENT"); ("USER_ACCESS", "PUBLIC");
  ("USER_ENVIRONMENT", "PUBLIC"); ("USER_CATEGORY1", "HS");
  ("USER_CATEGORY11", "STU"); ("expire_day", "0630"); ("USER_STATUS", "OK");
  ("NOTIFY_VIA", "EMAIL"); ("USER_CHG_HIST_RULE", "ALLCHANGES")
].

Definition sample_row : gmap string string := list_to_map [
  ("student_id", "123456"); ("first_name", "ADA"); ("last_name", "LOVELACE");
  ("birthdate", "20101210"); ("grade", "9"); ("grad_year", "");
  ("street", "12 MAIN ST  "); ("city", "SPRINGFIELD"); ("state", "IL");
  ("zip", "62704-1234"); ("email", "ada@example.org");
  ("phone_number", "(555)555-5555")
].

(** The record of the sample row in the year 2026. *)
Definition sample_record : list (string * string) := [
  ("USER_ID", "S123456"); ("USER_ROUTING_FLAG", "Y");
  ("USER_FIRST_NAME", "ADA"); ("USER_LAST_NAME", "LOVELACE");
  ("USER_NAME_DSP_PREF", "0"); ("USER_BIRTH_DATE", "20101210");
  ("USER_LIBRARY", "HS"); ("USER_PROFILE", "STUDENT"); ("USER_PIN", "3456");
  ("USER_ACCESS", "PUBLIC"); ("USER_ENVIRONMENT", "PUBLIC");
  ("USER_CATEGORY1", "HS"); ("USER_CATEGORY11", "STU");
  ("USER_CATEGORY12", "2029"); ("USER_PRIV_EXPIRES", "20290630");
  ("USER_STATUS", "OK"); ("USER_MAILINGADDR", "1"); ("USER_ADDR1_BEGIN", "");
  ("STREET", "12 MAIN ST  "); ("CITY/STATE", "SPRINGFIELD IL");
  ("ZIP", "62704"); ("PHONE", "555 555 5555"); ("EMAIL", "ada@example.org");
  ("USER_ADDR1_END", ""); ("USER_XINFO_BEGIN", ""); ("NOTIFY_VIA", "EMAIL");
  ("USER_XINFO_END", ""); ("USER_CHG_HIST_RULE", "ALLCHANGES")
].

(** A directory with fifteen reports, listed in no particular order,
    and two other files. Timestamps are seconds with a fraction. *)
Definition sample_stat (t : Q) : stat_result := mk_stat t None t.

Definition sample_directory : directory := [
  ("LDUSER-20261007-060000.txt", sample_stat (17283072005 # 10));
  ("LDUSER-20261001-060000.txt", sample_stat (17277888001 # 10));
  ("symphony.log", sample_stat (17290000000 # 10));
  ("LDUSER-20261015-060000.txt", sample_stat (17289984009 # 10));
  ("LDUSER-20261003-060000.txt", sample_stat (17279616002 # 10));
  ("LDUSER-20261012-060000.txt", sample_stat (17287392004 # 10));
  ("LDUSER-20261002-060000.txt", sample_stat (17278752007 # 10));
  ("LDUSER-20261009-060000.txt", sample_stat (17284800003 # 10));
  ("LDUSER-20261005-060000.txt", sample_stat (17281344006 # 10));
  ("LDUSER-20261014-060000.txt", sample_stat (17289120008 # 10));
  ("LDUSER-20261004-060000.txt", sample_stat (17280480001 # 10));
  ("LDUSER-20261011-060000.txt", sample_stat (17286528002 # 10));
  ("LDUSER-20261006-060000.txt", sample_stat (17282208009 # 10));
  ("old.txt.bak", sample_stat (17000000000 # 10));
  ("LDUSER-20261013-060000.txt", sample_stat (17288256005 # 10));
  ("LDUSER-20261008-060000.txt", sample_stat (17283936004 # 10));
  ("LDUSER-20261010-060000.txt", sample_stat (17285664006 # 10))
].

(** A grade with one digit more than the limit of [int], and the grade of
    minus as many nines as the limit allows. *)
Definition long_grade : string := PyStr.repeat "9" (S PyInt.max_str_digits).
Definition deep_grade : string := String "-" (PyStr.repeat "9" PyInt.max_str_digits).

(** The same pupil with a kindergarten grade code. *)
Definition sample_row_k : gmap string string := <["grade" := "K"]> sample_row.

(** An action on the output file that only appends: the text it adds and
    its outcome do not depend on what the file holds. *)
Definition appends {A : Type} (io : IO A) : Prop :=
  ∀ file, run io file = (fst (run io ""), file +:+ snd (run io "")).

Example transform_zip_ext : transform_zip "12345-6789" = "12345".
Proof. reflexivity. Qed.

Example transform_zip_plain : transform_zip "12345" = "12345".
Proof. reflexivity. Qed.

Example transform_phone_sis : transform_phone "(555)555-5555" = "555 555 5555".
Proof. reflexivity. Qed.

(** ** Facts about the string primitives *)

Section StringFacts.

Implicit Types (s t u : string) (c : ascii).

Lemma str_app_cons c s t : String c s +:+ t = String c (s +:+ t).
Proof. reflexivity. Qed.

Lemma str_app_nil_l s : "" +:+ s = s.
Proof. reflexivity. Qed.

Lemma str_app_nil_r s : s +:+ "" = s.
Proof. induction s as [|a s IH]; [done | by rewrite str_app_cons, IH]. Qed.

Lemma str_app_assoc s t u : (s +:+ t) +:+ u = s +:+ t +:+ u.
Proof. induction s as [|a s IH]; [done | by rewrite !str_app_cons, IH]. Qed.

Lemma has_char_app c s t :
  PyStr.has_char c (s +:+ t) = PyStr.has_char c s || PyStr.has_char c t.
Proof.
  induction s as [|a s IH]; [done |].
  rewrite str_app_cons. simpl. by rewrite IH, orb_assoc.
Qed.

Lemma split_not_nil c s : PyStr.split c s ≠ [].
Proof.
  destruct s as [|a s]; simpl; [done |].
  destruct (Ascii.eqb a c); [done |].
  by destruct (PyStr.split c s).
Qed.

(** The first piece of a split is what precedes the first separator. *)
Lemma split_head_before c s t :
  PyStr.has_char c s = false →
  hd "" (PyStr.split c (s +:+ String c t)) = s.
Proof.
  induction s as [|a s IH]; [rewrite str_app_nil_l | rewrite str_app_cons]; simpl.
  - intros _. by rewrite Ascii.eqb_refl.
  - intros H. apply orb_false_iff in H as [Ha Hs].
    rewrite Ha. specialize (IH Hs).
    destruct (PyStr.split c (s +:+ String c t)) as [|p ps] eqn:E.
    + by apply split_not_nil in E.
    + simpl in *. by subst.
Qed.

Lemma split_head_absent c s :
  PyStr.has_char c s = false → PyStr.split c s = [s].
Proof.
  induction s as [|a s IH]; simpl; [done |].
  intros H. apply orb_false_iff in H as [Ha Hs].
  by rewrite Ha, (IH Hs).
Qed.

(** A string that has the character splits at its first occurrence. *)
Lemma has_char_first c s :
  PyStr.has_char c s = true →
  ∃ a b, s = a +:+ String c b ∧ PyStr.has_char c a = false.
Proof.
  induction s as [|x s IH]; simpl; [done |].
  destruct (Ascii.eqb_spec x c) as [->|Hne]; simpl.
  - intros _. by exists "", s.
  - intros H. destruct (IH H) as (a & b & -> & Ha).
    exists (String x a), b. split; [done |]. simpl.
    apply Ascii.eqb_neq in Hne. by rewrite Hne.
Qed.

Lemma replace_app c new s t :
  PyStr.replace c new (s +:+ t) = PyStr.replace c new s +:+ PyStr.replace c new t.
Proof.
  induction s as [|a s IH]; [done |].
  rewrite str_app_cons. simpl.
  destruct (Ascii.eqb a c); rewrite IH; [by rewrite str_app_assoc | done].
Qed.

Lemma replace_absent c new s :
  PyStr.has_char c s = false → PyStr.replace c new s = s.
Proof.
  induction s as [|a s IH]; simpl; [done |].
  intros H. apply orb_false_iff in H as [Ha Hs].
  by rewrite Ha, (IH Hs).
Qed.

Lemma count_app c s t :
  PyStr.count c (s +:+ t) = (PyStr.count c s + PyStr.count c t)%nat.
Proof.
  induction s as [|a s IH]; [done |].
  rewrite str_app_cons. simpl. rewrite IH. lia.
Qed.

Lemma count_absent c s : PyStr.has_char c s = false → PyStr.count c s = 0%nat.
Proof.
  induction s as [|a s IH]; simpl; [done |].
  intros H. apply orb_false_iff in H as [Ha Hs].
  by rewrite Ha, (IH Hs).
Qed.

(** A string of digits has no other character. *)
Lemma digits_has_no c s :
  PyStr.isdigit c = false → PyStr.all_chars PyStr.isdigit s = true →
  PyStr.has_char c s = false.
Proof.
  intros Hc. induction s as [|a s IH]; simpl; [done |].
  intros H. apply andb_true_iff in H as [Ha Hs].
  rewrite (IH Hs), orb_false_r.
  destruct (Ascii.eqb_spec a c) as [->|]; [congruence | done].
Qed.

End StringFacts.

(** ** Field transformers: ZIP and phone *)

(** Evaluate [replace] on the one-character literals of a goal. *)
Ltac replace_literals :=
  repeat match goal with
  | |- context [PyStr.replace ?c ?new ""] =>
      change (PyStr.replace c new "") with ""
  | |- context [PyStr.replace ?c ?new (String ?a "")] =>
      let r := eval vm_compute in (PyStr.replace c new (String a "")) in
      change (PyStr.replace c new (String a "")) with r
  end.

Lemma transform_zip_before_hyphen (a b : string) :
  PyStr.has_char "-" a = false → transform_zip (a +:+ "-" +:+ b) = a.
Proof. intros H. unfold transform_zip. by apply split_head_before. Qed.

(** C3. For every string that contains a hyphen, [transform_zip] returns
    exactly the substring before the first hyphen: the input is the
    result, a hyphen and some rest, and the result has no hyphen. For
    every string without a hyphen it returns the input unchanged. Nothing
    else about the input is checked. *)
Theorem transform_zip_spec (number : string) :
  (PyStr.has_char "-" number = true →
     ∃ rest, number = transform_zip number +:+ "-" +:+ rest
             ∧ PyStr.has_char "-" (transform_zip number) = false)
  ∧ (PyStr.has_char "-" number = false → transform_zip number = number).
Proof.
  split; intros H.
  - destruct (has_char_first _ _ H) as (a & b & -> & Ha).
    exists b. change (String "-" b) with ("-" +:+ b).
    by rewrite (transform_zip_before_hyphen a b Ha).
  - unfold transform_zip. by rewrite split_head_absent.
Qed.

Lemma transform_zip_spec_witness :
  (∃ rest, "12345-6789" = transform_zip "12345-6789" +:+ "-" +:+ rest
           ∧ PyStr.has_char "-" (transform_zip "12345-6789") = false)
  ∧ transform_zip "12345" = "12345".
Proof.
  split.
  - apply (proj1 (transform_zip_spec "12345-6789")). reflexivity.
  - apply (proj2 (transform_zip_spec "12345")). reflexivity.
Defined.

(** C4. For every phone string of the shape (DDD)DDD-DDDD, each D a
    digit, [transform_phone] returns DDD DDD DDDD: the opening parenthesis
    is removed, the closing parenthesis and the hyphen each become one
    space, and the result has exactly two spaces. *)
Theorem transform_phone_shape (area exchange line : string) :
  PyStr.all_chars PyStr.isdigit area = true → String.length area = 3%nat →
  PyStr.all_chars PyStr.isdigit exchange = true → String.length exchange = 3%nat →
  PyStr.all_chars PyStr.isdigit line = true → String.length line = 4%nat →
  transform_phone ("(" +:+ area +:+ ")" +:+ exchange +:+ "-" +:+ line)
    = area +:+ " " +:+ exchange +:+ " " +:+ line
  ∧ PyStr.count " " (transform_phone ("(" +:+ area +:+ ")" +:+ exchange +:+ "-" +:+ line))
    = 2%nat.
Proof.
  intros Ha _ Hb _ Hc _.
  assert (E : transform_phone ("(" +:+ area +:+ ")" +:+ exchange +:+ "-" +:+ line)
              = area +:+ " " +:+ exchange +:+ " " +:+ line).
  { unfold transform_phone.
    rewrite !replace_app.
    rewrite (replace_absent "(" "" area), (replace_absent "(" "" exchange),
      (replace_absent "(" "" line) by (by apply digits_has_no).
    rewrite (replace_absent ")" " " area), (replace_absent ")" " " exchange),
      (replace_absent ")" " " line) by (by apply digits_has_no).
    rewrite (replace_absent "-" " " area), (replace_absent "-" " " exchange),
      (replace_absent "-" " " line) by (by apply digits_has_no).
    by replace_literals. }
  split; [exact E |].
  rewrite E, !count_app.
  rewrite (count_absent " " area), (count_absent " " exchange),
    (count_absent " " line) by (by apply digits_has_no).
  reflexivity.
Qed.

Lemma transform_phone_shape_witness :
  transform_phone "(555)555-5555" = "555 555 5555"
  ∧ PyStr.count " " (transform_phone "(555)555-5555") = 2%nat.
Proof. apply (transform_phone_shape "555" "555" "5555"); reflexivity. Defined.

(** ** Graduation year *)

Section IntFacts.

Implicit Types (s : string) (c : ascii).

Lemma digit_not_space c : PyStr.isdigit c = true → PyInt.isspace c = false.
Proof. by destruct c as [[] [] [] [] [] [] [] []]. Qed.

Lemma rstrip_no_space s :
  PyStr.all_chars (fun c => negb (PyInt.isspace c)) s = true → PyInt.rstrip s = s.
Proof.
  induction s as [|c s IH]; simpl; [done |].
  intros H. apply andb_true_iff in H as [Hc Hs].
  rewrite (IH Hs). apply negb_true_iff in Hc. rewrite Hc.
  by destruct s.
Qed.

Lemma all_chars_impl (p q : ascii → bool) s :
  (∀ c, p c = true → q c = true) →
  PyStr.all_chars p s = true → PyStr.all_chars q s = true.
Proof.
  intros Hpq. induction s as [|c s IH]; simpl; [done |].
  intros H. apply andb_true_iff in H as [Hc Hs].
  by rewrite (Hpq c Hc), (IH Hs).
Qed.

Lemma strip_digits s :
  PyStr.all_chars PyStr.isdigit s = true → PyInt.strip s = s.
Proof.
  intros H. unfold PyInt.strip.
  assert (PyInt.lstrip s = s) as ->.
  { destruct s as [|c s]; simpl; [done |].
    simpl in H. apply andb_true_iff in H as [Hc _].
    by rewrite (digit_not_space c Hc). }
  apply rstrip_no_space. revert H. apply all_chars_impl.
  intros c Hc. by rewrite (digit_not_space c Hc).
Qed.

Lemma digit_count_digits s :
  PyStr.all_chars PyStr.isdigit s = true → PyInt.digit_count s = String.length s.
Proof.
  induction s as [|c s IH]; simpl; [done |].
  intros H. apply andb_true_iff in H as [Hc Hs]. by rewrite Hc, (IH Hs).
Qed.

Lemma scan_digits acc s :
  PyStr.all_chars PyStr.isdigit s = true →
  PyInt.scan acc PyInt.Digit s = Some (PyInt.decimal_from acc s).
Proof.
  revert acc. induction s as [|c s IH]; simpl; [done |].
  intros acc H. apply andb_true_iff in H as [Hc Hs].
  by rewrite Hc, (IH _ Hs).
Qed.

Lemma scan_nothing_digits s :
  s ≠ "" → PyStr.all_chars PyStr.isdigit s = true →
  PyInt.scan 0 PyInt.Nothing s = Some (PyInt.decimal_value s).
Proof.
  destruct s as [|c s]; [done |]. intros _ H.
  simpl in H. apply andb_true_iff in H as [Hc Hs].
  cbn [PyInt.scan]. rewrite Hc. by apply scan_digits.
Qed.

Lemma digit_value_range c :
  PyStr.isdigit c = true → 0 ≤ PyInt.digit_value c ≤ 9.
Proof.
  destruct c as [[] [] [] [] [] [] [] []]; intros H; try discriminate H;
    by vm_compute.
Qed.

Lemma decimal_from_acc (acc : Z) s :
  PyInt.decimal_from acc s
  = acc * 10 ^ Z.of_nat (String.length s) + PyInt.decimal_from 0 s.
Proof.
  revert acc. induction s as [|c s IH]; intros acc.
  - simpl. lia.
  - cbn [PyInt.decimal_from String.length].
    rewrite (IH (10 * acc + PyInt.digit_value c)),
      (IH (10 * 0 + PyInt.digit_value c)).
    rewrite Nat2Z.inj_succ, Z.pow_succ_r by lia. lia.
Qed.

(** A numeral of [k] digits denotes a number below the [k]th power of
    ten. *)
Lemma decimal_value_range s :
  PyStr.all_chars PyStr.isdigit s = true →
  0 ≤ PyInt.decimal_value s < 10 ^ Z.of_nat (String.length s).
Proof.
  unfold PyInt.decimal_value. induction s as [|c s IH]; [done |].
  cbn [PyStr.all_chars]. intros H. apply andb_true_iff in H as [Hc Hs].
  specialize (IH Hs). pose proof (digit_value_range c Hc) as Hd.
  cbn [PyInt.decimal_from String.length].
  rewrite decimal_from_acc, Nat2Z.inj_succ, Z.pow_succ_r by lia.
  nia.
Qed.

(** [int] reads a non-empty string of digits, no longer than the limit,
    as the decimal number it denotes. *)
Lemma parse_decimal s :
  s ≠ "" → PyStr.all_chars PyStr.isdigit s = true →
  (String.length s ≤ PyInt.max_str_digits)%nat →
  PyInt.parse s = Some (PyInt.decimal_value s).
Proof.
  intros Hne H Hlen. unfold PyInt.parse. rewrite (strip_digits s H).
  assert (PyInt.numeral s = Some (PyInt.decimal_value s)) as E.
  { unfold PyInt.numeral. rewrite (digit_count_digits s H).
    destruct (Nat.ltb_spec PyInt.max_str_digits (String.length s)); [lia |].
    by apply scan_nothing_digits. }
  destruct s as [|c s]; [done |].
  simpl in H. apply andb_true_iff in H as [Hc Hs].
  destruct c as [[] [] [] [] [] [] [] []]; try discriminate Hc; exact E.
Qed.

(** [int] refuses a string of digits that is longer than the limit. *)
Lemma parse_decimal_long s :
  PyStr.all_chars PyStr.isdigit s = true →
  (PyInt.max_str_digits < String.length s)%nat →
  PyInt.parse s = None.
Proof.
  intros H Hlen. unfold PyInt.parse. rewrite (strip_digits s H).
  assert (PyInt.numeral s = None) as E.
  { unfold PyInt.numeral. rewrite (digit_count_digits s H).
    by destruct (Nat.ltb_spec PyInt.max_str_digits (String.length s)); [| lia]. }
  destruct s as [|c s]; [exact E |].
  simpl in H. apply andb_true_iff in H as [Hc Hs].
  destruct c as [[] [] [] [] [] [] [] []]; try discriminate Hc; exact E.
Qed.

Lemma digits_upto_le (fuel k : nat) (n : Z) :
  0 ≤ n → (k < fuel)%nat →
  (PyInt.digits_upto fuel n ≤ k)%nat ↔ n < 10 ^ Z.of_nat k.
Proof.
  revert k n. induction fuel as [|fuel IH]; intros k n Hn Hk; [lia |].
  cbn [PyInt.digits_upto]. destruct (Z.leb_spec n 0) as [H0|Hpos].
  - assert (n = 0) as -> by lia.
    pose proof (Z.pow_pos_nonneg 10 (Z.of_nat k)). split; lia.
  - destruct k as [|k].
    + change (10 ^ Z.of_nat 0) with 1. split; lia.
    + rewrite Nat2Z.inj_succ, Z.pow_succ_r by lia.
      pose proof (IH k (n / 10)) as IHk.
      pose proof (Z.div_mod n 10) as Hdm. pose proof (Z.mod_pos_bound n 10) as Hm.
      assert (0 ≤ n / 10) as Hq by (apply Z.div_pos; lia).
      specialize (IHk Hq). 
      set (P := 10 ^ Z.of_nat k) in *. clearbody P.
      set (q := n / 10) in *. set (r := n mod 10) in *. clearbody q r.
      split; intros H.
      * assert (q < P) by (apply IHk; lia). lia.
      * assert (PyInt.digits_upto fuel q ≤ k)%nat by (apply IHk; lia). lia.
Qed.

(** [str] writes a number exactly when it is, in absolute value, below
    ten to the power of the limit. *)
Lemma too_long_false (n : Z) :
  PyInt.too_long n = false ↔ Z.abs n < 10 ^ Z.of_nat PyInt.max_str_digits.
Proof.
  unfold PyInt.too_long. rewrite Nat.ltb_ge.
  apply digits_upto_le; lia.
Qed.

Lemma too_long_true (n : Z) :
  PyInt.too_long n = true ↔ 10 ^ Z.of_nat PyInt.max_str_digits ≤ Z.abs n.
Proof.
  unfold PyInt.too_long. rewrite Nat.ltb_lt.
  pose proof (digits_upto_le (S PyInt.max_str_digits) PyInt.max_str_digits
                (Z.abs n) (Z.abs_nonneg n) (Nat.lt_succ_diag_r _)) as H.
  set (L := 10 ^ Z.of_nat PyInt.max_str_digits) in *. clearbody L.
  set (d := PyInt.digits_upto (S PyInt.max_str_digits) (Z.abs n)) in *.
  clearbody d. set (m := PyInt.max_str_digits) in *. clearbody m.
  split; intros H'.
  - apply Z.nlt_ge. intros Hlt. apply H in Hlt. lia.
  - apply Nat.nle_gt. intros Hle. apply H in Hle. lia.
Qed.

(** Ten to the power of the limit is beyond every calendar year. *)
Lemma limit_large : 100000 ≤ 10 ^ Z.of_nat PyInt.max_str_digits.
Proof.
  change 100000 with (10 ^ 5). apply Z.pow_le_mono_r; [lia |].
  unfold PyInt.max_str_digits. lia.
Qed.

(** A year derived in a calendar year from a grade of digits within the
    limit is itself within the limit. *)
Lemma derived_year_printable (curr_year : Z) s :
  1 ≤ curr_year ≤ 9999 → PyStr.all_chars PyStr.isdigit s = true →
  (String.length s ≤ PyInt.max_str_digits)%nat →
  PyInt.too_long (curr_year + (12 - PyInt.decimal_value s)) = false.
Proof.
  intros Hy Hd Hlen. apply too_long_false.
  pose proof (decimal_value_range s Hd) as Hv.
  assert (10 ^ Z.of_nat (String.length s) ≤ 10 ^ Z.of_nat PyInt.max_str_digits)
    as Hpow by (apply Z.pow_le_mono_r; lia).
  pose proof limit_large as Hbig.
  set (L := 10 ^ Z.of_nat PyInt.max_str_digits) in *. clearbody L.
  set (M := 10 ^ Z.of_nat (String.length s)) in *. clearbody M. lia.
Qed.

(** [int] reads a minus sign followed by digits, no more than the limit,
    as the opposite of the number they denote. *)
Lemma parse_negative s :
  s ≠ "" → PyStr.all_chars PyStr.isdigit s = true →
  (String.length s ≤ PyInt.max_str_digits)%nat →
  PyInt.parse (String "-" s) = Some (- PyInt.decimal_value s).
Proof.
  intros Hne Hd Hlen. unfold PyInt.parse.
  assert (PyInt.strip (String "-" s) = String "-" s) as ->.
  { unfold PyInt.strip. cbn [PyInt.lstrip].
    change (PyInt.isspace "-") with false. cbv iota.
    apply rstrip_no_space. cbn [PyStr.all_chars].
    change (negb (PyInt.isspace "-")) with true. rewrite andb_true_l.
    revert Hd. apply all_chars_impl.
    intros c Hc. by rewrite (digit_not_space c Hc). }
  cbv iota beta. unfold PyInt.numeral.
  rewrite (digit_count_digits _ Hd).
  destruct (Nat.ltb_spec PyInt.max_str_digits (String.length s)); [lia |].
  by rewrite scan_nothing_digits.
Qed.

Lemma all_chars_repeat (p : ascii → bool) c (n : nat) :
  p c = true → PyStr.all_chars p (PyStr.repeat c n) = true.
Proof. intros Hc. induction n as [|n IH]; simpl; [done | by rewrite Hc, IH]. Qed.

Lemma length_repeat c (n : nat) : String.length (PyStr.repeat c n) = n.
Proof. induction n as [|n IH]; simpl; [done | by rewrite IH]. Qed.

(** A row of nines is one less than a power of ten. *)
Lemma decimal_value_nines (n : nat) :
  PyInt.decimal_value (PyStr.repeat "9" n) = 10 ^ Z.of_nat n - 1.
Proof.
  unfold PyInt.decimal_value. induction n as [|n IH]; [done |].
  cbn [PyStr.repeat PyInt.decimal_from].
  rewrite decimal_from_acc, IH, length_repeat.
  rewrite Nat2Z.inj_succ, Z.pow_succ_r by lia.
  change (PyInt.digit_value "9") with 9.
  set (P := 10 ^ Z.of_nat n). clearbody P. lia.
Qed.

End IntFacts.

Lemma get_grad_year_parsed (curr_year : Z) (grade : string) (g : Z) :
  PyInt.parse grade = Some g →
  PyInt.too_long (curr_year + (12 - g)) = false →
  get_grad_year curr_year "" grade = Ok (PyInt.to_str (curr_year + (12 - g))).
Proof.
  intros Hg Hlong. unfold get_grad_year, int. rewrite Hg.
  cbn [negb String.eqb mbind outcome_bind]. unfold str.
  replace (12 - g + curr_year) with (curr_year + (12 - g)) by lia.
  by rewrite Hlong.
Qed.

Lemma get_grad_year_cases (curr_year : Z) (grade : string) :
  get_grad_year curr_year "" grade
  = match PyInt.parse grade with
    | None => Raise ValueError
    | Some g =>
        if PyInt.too_long (12 - g + curr_year) then Raise ValueError
        else Ok (PyInt.to_str (12 - g + curr_year))
    end.
Proof.
  unfold get_grad_year, int. cbn [negb String.eqb].
  by destruct (PyInt.parse grade).
Qed.

(** C5, as the specification states it, fails: the grade of 4301 nines
    is a decimal integer string, and with an empty provided year
    [get_grad_year] raises [ValueError] for it instead of returning a
    year, because [int] refuses a numeral of more than 4300 digits. *)
Lemma get_grad_year_long_grade :
  long_grade ≠ ""
  ∧ PyStr.all_chars PyStr.isdigit long_grade = true
  ∧ String.length long_grade = 4301%nat
  ∧ get_grad_year 2026 "" long_grade = Raise ValueError.
Proof.
  assert (PyStr.all_chars PyStr.isdigit long_grade = true) as Hd
    by (by apply all_chars_repeat).
  assert (String.length long_grade = S PyInt.max_str_digits) as Hlen
    by apply length_repeat.
  split; [discriminate |]. split; [exact Hd |]. split; [exact Hlen |].
  rewrite get_grad_year_cases, (parse_decimal_long long_grade Hd); [done |].
  rewrite Hlen. lia.
Qed.

(** C5, amended. With a non-empty provided year, [get_grad_year] returns
    it unchanged whatever the grade. With an empty provided year and a
    grade that [int] reads as the integer [g], it returns the decimal
    string of the current year plus [12 - g], provided that number is
    within the limit of [str]. In a calendar year this covers every
    non-empty string of at most 4300 decimal digits; grade "9" in year Y
    gives [str(Y + 3)]. For a longer string of digits it raises
    [ValueError]. *)
Theorem get_grad_year_spec (curr_year : Z) (year grade : string) :
  (year ≠ "" → get_grad_year curr_year year grade = Ok year)
  ∧ (∀ g, PyInt.parse grade = Some g →
       PyInt.too_long (curr_year + (12 - g)) = false →
       get_grad_year curr_year "" grade
       = Ok (PyInt.to_str (curr_year + (12 - g))))
  ∧ (1 ≤ curr_year ≤ 9999 → grade ≠ "" →
     PyStr.all_chars PyStr.isdigit grade = true →
     (String.length grade ≤ PyInt.max_str_digits)%nat →
       get_grad_year curr_year "" grade
       = Ok (PyInt.to_str (curr_year + (12 - PyInt.decimal_value grade))))
  ∧ (1 ≤ curr_year ≤ 9999 →
       get_grad_year curr_year "" "9" = Ok (PyInt.to_str (curr_year + 3)))
  ∧ (PyStr.all_chars PyStr.isdigit grade = true →
     (PyInt.max_str_digits < String.length grade)%nat →
       get_grad_year curr_year "" grade = Raise ValueError).
Proof.
  split; [| split; [| split; [| split]]].
  - intros Hne. unfold get_grad_year.
    apply String.eqb_neq in Hne. by rewrite Hne.
  - apply get_grad_year_parsed.
  - intros Hy Hne Hd Hlen. apply get_grad_year_parsed.
    + by apply parse_decimal.
    + by apply derived_year_printable.
  - intros Hy.
    rewrite (get_grad_year_parsed curr_year "9" 9); [done | done |].
    apply (derived_year_printable curr_year "9"); [done | done |].
    unfold PyInt.max_str_digits. simpl. lia.
  - intros Hd Hlen. rewrite get_grad_year_cases.
    by rewrite (parse_decimal_long grade Hd Hlen).
Qed.

Lemma get_grad_year_spec_witness :
  get_grad_year 2026 "2026" "9" = Ok "2026"
  ∧ get_grad_year 2026 "" " 10 " = Ok "2028"
  ∧ get_grad_year 2026 "" "0012" = Ok "2026"
  ∧ get_grad_year 2026 "" "9" = Ok "2029".
Proof.
  split; [| split; [| split]].
  - apply (proj1 (get_grad_year_spec 2026 "2026" "9")). discriminate.
  - apply (proj1 (proj2 (get_grad_year_spec 2026 "" " 10 ")) 10);
      vm_compute; reflexivity.
  - apply (proj1 (proj2 (proj2 (get_grad_year_spec 2026 "" "0012"))));
      [lia | discriminate | reflexivity | unfold PyInt.max_str_digits; simpl; lia].
  - apply (proj1 (proj2 (proj2 (proj2 (get_grad_year_spec 2026 "" "9"))))). lia.
Defined.

(** C6, as the specification states it, fails: the grade of a minus
    sign and 4300 nines is parseable as an integer, [int] reads it, and with an
    empty provided year [get_grad_year] still raises [ValueError], because
    the derived year has 4301 digits and [str] refuses to write it. *)
Lemma get_grad_year_deep_grade :
  PyInt.parse deep_grade = Some (1 - 10 ^ Z.of_nat PyInt.max_str_digits)
  ∧ get_grad_year 2026 "" deep_grade = Raise ValueError.
Proof.
  assert (PyInt.parse deep_grade
          = Some (1 - 10 ^ Z.of_nat PyInt.max_str_digits)) as Hparse.
  { unfold deep_grade. rewrite parse_negative.
    - rewrite decimal_value_nines.
      generalize (10 ^ Z.of_nat PyInt.max_str_digits). intros L.
      apply (f_equal Some). lia.
    - discriminate.
    - by apply all_chars_repeat.
    - by rewrite length_repeat. }
  split; [exact Hparse |].
  rewrite get_grad_year_cases, Hparse.
  assert (PyInt.too_long (12 - (1 - 10 ^ Z.of_nat PyInt.max_str_digits) + 2026)
          = true) as ->; [| reflexivity].
  apply too_long_true. pose proof limit_large as Hbig.
  set (L := 10 ^ Z.of_nat PyInt.max_str_digits) in *. clearbody L. lia.
Qed.

(** C6, amended. [get_grad_year] raises [ValueError] exactly when the
    provided year is the empty string and either [int] cannot read the
    grade or the year derived from it has more digits than [str] writes.
    It raises nothing else, and with a non-empty provided year it returns,
    whatever the grade. *)
Theorem get_grad_year_raises (curr_year : Z) (year grade : string) :
  (get_grad_year curr_year year grade = Raise ValueError
     ↔ year = ""
       ∧ (PyInt.parse grade = None
          ∨ ∃ g, PyInt.parse grade = Some g
                 ∧ PyInt.too_long (12 - g + curr_year) = true))
  ∧ (∀ e, get_grad_year curr_year year grade = Raise e → e = ValueError)
  ∧ (year ≠ "" → get_grad_year curr_year year grade = Ok year).
Proof.
  destruct (String.eqb_spec year "") as [->|Hne].
  - rewrite get_grad_year_cases.
    destruct (PyInt.parse grade) as [g|].
    + destruct (PyInt.too_long (12 - g + curr_year)) eqn:Hlong.
      * split; [split |].
        -- intros _. split; [reflexivity |]. right. exists g.
           split; [reflexivity | exact Hlong].
        -- intros _. reflexivity.
        -- clear Hlong. split; [by intros e [= <-] | done].
      * split; [split |].
        -- intros H. discriminate H.
        -- intros [_ [H | (g' & Hg' & Hlong')]]; [discriminate H |].
           injection Hg' as <-. rewrite Hlong in Hlong'. discriminate Hlong'.
        -- clear Hlong. split; [intros e H; discriminate H | done].
    + split; [| split; [by intros e [= <-] | done]].
      split; [| done]. intros _. split; [done | by left].
  - assert (get_grad_year curr_year year grade = Ok year) as ->.
    { unfold get_grad_year. apply String.eqb_neq in Hne. by rewrite Hne. }
    split; [| split; [done | done]].
    split; [done | by intros [? _]].
Qed.

Lemma get_grad_year_raises_witness :
  get_grad_year 2026 "" "K" = Raise ValueError
  ∧ get_grad_year 2026 "" (String (Ascii.ascii_of_nat 28) "9") = Raise ValueError
  ∧ get_grad_year 2026 "2030" "K" = Ok "2030".
Proof.
  split; [| split].
  - apply (proj1 (get_grad_year_raises 2026 "" "K")).
    split; [reflexivity | left; reflexivity].
  - apply (proj1 (get_grad_year_raises 2026 "" (String (Ascii.ascii_of_nat 28) "9"))).
    split; [reflexivity | left; reflexivity].
  - apply (proj2 (proj2 (get_grad_year_raises 2026 "2030" "K"))). discriminate.
Defined.

(** ** Record writer *)

Section WriterFacts.

Implicit Types (s t x : string) (c : ascii).

Lemma startswith_correct x s :
  PyStr.startswith x s = true ↔ ∃ b, s = x +:+ b.
Proof.
  revert s. induction x as [|a x IH]; intros s; simpl.
  - split; [intros _; by exists s | done].
  - destruct s as [|b s].
    + split; [done | intros [t Ht]; discriminate Ht].
    + rewrite andb_true_iff, Ascii.eqb_eq, IH. split.
      * intros [-> [t ->]]. by exists t.
      * intros [t Ht]. rewrite str_app_cons in Ht. injection Ht as -> ->.
        split; [done | by exists t].
Qed.

(** [x in s] holds exactly when [s] is some text, [x], some text. *)
Lemma contains_correct x s :
  PyStr.contains x s = true ↔ ∃ a b, s = a +:+ x +:+ b.
Proof.
  induction s as [|c s IH].
  - simpl. rewrite orb_false_r, startswith_correct. split.
    + intros [b Hb]. by exists "", b.
    + intros (a & b & H). destruct a as [|? a]; [by exists b |].
      rewrite str_app_cons in H. discriminate H.
  - cbn [PyStr.contains]. rewrite orb_true_iff, startswith_correct, IH. split.
    + intros [[b Hb] | (a & b & ->)].
      * by exists "", b.
      * by exists (String c a), b.
    + intros (a & b & H). destruct a as [|c' a].
      * left. by exists b.
      * right. rewrite str_app_cons in H. injection H as -> ->. by exists a, b.
Qed.

(** [s.endswith(x)] holds exactly when [s] is some text followed by [x]. *)
Lemma endswith_correct x s :
  PyStr.endswith x s = true ↔ ∃ a, s = a +:+ x.
Proof.
  induction s as [|c s IH].
  - simpl. rewrite orb_false_r. split.
    + destruct x; [by exists "" | done].
    + intros [a H]. by destruct a, x.
  - cbn [PyStr.endswith]. rewrite orb_true_iff, String.eqb_eq, IH. split.
    + intros [<- | [a ->]]; [by exists "" | by exists (String c a)].
    + intros [a H]. destruct a as [|c' a].
      * left. by rewrite str_app_nil_l in H.
      * right. rewrite str_app_cons in H. injection H as -> ->. by exists a.
Qed.

Lemma endswith_contains x s :
  PyStr.endswith x s = true → PyStr.contains x s = true.
Proof.
  rewrite endswith_correct, contains_correct.
  intros [a ->]. exists a, "". by rewrite str_app_nil_r.
Qed.

(** [rstrip] removes a run of whitespace from the end. *)
Lemma rstrip_suffix s :
  ∃ w, s = PyStr.rstrip s +:+ w ∧ PyStr.all_chars PyStr.isspace w = true.
Proof.
  induction s as [|c s (w & Hw & Hsp)].
  - by exists "".
  - simpl. destruct (PyStr.rstrip s) as [|d r] eqn:E.
    + destruct (PyStr.isspace c) eqn:Hc.
      * exists (String c s). split; [done |]. simpl.
        rewrite Hc. rewrite str_app_nil_l in Hw. by rewrite Hw.
      * exists w. by rewrite !str_app_cons, <- Hw.
    + exists w. by rewrite str_app_cons, <- Hw.
Qed.

(** What [rstrip] leaves does not end with whitespace. *)
Lemma rstrip_last s c :
  last_char (PyStr.rstrip s) = Some c → PyStr.isspace c = false.
Proof.
  induction s as [|a s IH]; simpl; [done |].
  destruct (PyStr.rstrip s) as [|d r] eqn:E.
  - destruct (PyStr.isspace a) eqn:Ha; simpl; [done |]. by intros [= <-].
  - intros H. by apply IH.
Qed.

Lemma has_marker_correct s :
  has_marker s = true
  ↔ ∃ a b, s = a +:+ "_BEGIN" +:+ b ∨ s = a +:+ "_END" +:+ b.
Proof.
  unfold has_marker. rewrite orb_true_iff, !contains_correct. split.
  - intros [(a & b & H) | (a & b & H)]; exists a, b; [by left | by right].
  - intros (a & b & [H | H]); [left | right]; by exists a, b.
Qed.

Lemma ends_with_marker_correct s :
  ends_with_marker s = true ↔ ∃ a, s = a +:+ "_BEGIN" ∨ s = a +:+ "_END".
Proof.
  unfold ends_with_marker. rewrite orb_true_iff, !endswith_correct. split.
  - intros [[a H] | [a H]]; exists a; [by left | by right].
  - intros (a & [H | H]); [left | right]; by exists a.
Qed.

Lemma ends_with_marker_has s :
  ends_with_marker s = true → has_marker s = true.
Proof.
  unfold ends_with_marker, has_marker. rewrite !orb_true_iff.
  intros [H | H]; [left | right]; by apply endswith_contains.
Qed.

(** What one call of [write_value] appends to the file. *)
Lemma write_value_run field value file :
  run (write_value field value) file
  = (Ok tt, file +:+ field_line field value).
Proof.
  unfold write_value, field_line, has_marker. simpl.
  rewrite orb_false_r.
  destruct (PyStr.contains "_BEGIN" field || PyStr.contains "_END" field);
    simpl; by rewrite !str_app_assoc.
Qed.

(** On the tags of a record the two readings of the marker test agree. *)
Lemma record_tags_markers :
  Forall (fun tag => has_marker tag = ends_with_marker tag) record_tags.
Proof. repeat constructor. Qed.

End WriterFacts.

(** C2, as the specification states it, fails: a tag with a marker inside
    its name does not end with a begin or end suffix, and still its line
    stops after the tag, without the value. *)
Lemma write_value_marker_inside :
  ends_with_marker "USER_END_DATE" = false
  ∧ run (write_value "USER_END_DATE" "20260630") ""
    = (Ok tt, ".USER_END_DATE." +:+ PyStr.nl)
  ∧ run (write_value "USER_END_DATE" "20260630") ""
    ≠ (Ok tt, ".USER_END_DATE.   |a20260630" +:+ PyStr.nl).
Proof. split; [| split]; [reflexivity | reflexivity | discriminate]. Qed.

(** C2, amended. For every tag and value and whatever the file holds,
    [write_value] appends one line that starts with '.' + tag + '.'. The
    line ends right there, without payload, if and only if the tag name
    contains "_BEGIN" or "_END" somewhere (which covers the tags that end
    with one of them); otherwise it goes on with three spaces, '|', 'a',
    the value without its trailing whitespace, and the line feed. *)
Theorem write_value_line (field value file : string) :
  run (write_value field value) file
  = (Ok tt,
     file +:+ "." +:+ field +:+ "." +:+
     (if has_marker field then PyStr.nl
      else "   " +:+ "|" +:+ "a" +:+ PyStr.rstrip value +:+ PyStr.nl))
  ∧ (has_marker field = true
     ↔ ∃ a b, field = a +:+ "_BEGIN" +:+ b ∨ field = a +:+ "_END" +:+ b)
  ∧ (ends_with_marker field = true → has_marker field = true)
  ∧ (∃ w, value = PyStr.rstrip value +:+ w
          ∧ PyStr.all_chars PyStr.isspace w = true)
  ∧ (∀ c, last_char (PyStr.rstrip value) = Some c → PyStr.isspace c = false).
Proof.
  split; [apply write_value_run |].
  split; [apply has_marker_correct |].
  split; [apply ends_with_marker_has |].
  split; [apply rstrip_suffix | apply rstrip_last].
Qed.

Lemma write_value_line_witness :
  run (write_value "STREET" "12 MAIN ST  ") "" = (Ok tt, ".STREET.   |a12 MAIN ST" +:+ PyStr.nl)
  ∧ run (write_value "USER_ADDR1_END" "") "" = (Ok tt, ".USER_ADDR1_END." +:+ PyStr.nl)
  ∧ has_marker "USER_ADDR1_END" = true.
Proof.
  split; [| split].
  - exact (proj1 (write_value_line "STREET" "12 MAIN ST  " "")).
  - exact (proj1 (write_value_line "USER_ADDR1_END" "" "")).
  - apply (proj1 (proj2 (proj2 (write_value_line "USER_ADDR1_END" "" "")))).
    reflexivity.
Defined.

(** ** Record builder *)

Section BuilderFacts.

Lemma dict_set_fresh {V : Type} (k : string) (v : V) (d : list (string * V)) :
  k ∉ map fst d → dict_set k v d = d ++ [(k, v)].
Proof.
  induction d as [|[k' v'] d IH]; simpl; [done |].
  intros H. apply not_elem_of_cons in H as [Hne Hd].
  destruct (String.eqb_spec k' k) as [->|_]; [done |].
  by rewrite (IH Hd).
Qed.

Lemma fold_dict_set_fresh {V : Type} (items acc : list (string * V)) :
  NoDup (map fst (acc ++ items)) →
  fold_left (fun d kv => dict_set (fst kv) (snd kv) d) items acc = acc ++ items.
Proof.
  revert acc. induction items as [|[k v] items IH]; intros acc Hnd; simpl.
  - by rewrite app_nil_r.
  - assert (k ∉ map fst acc) as Hk.
    { rewrite map_app in Hnd. simpl in Hnd.
      apply NoDup_app in Hnd as (_ & Hdisj & _).
      intros Hin. apply (Hdisj k Hin). left. }
    rewrite (dict_set_fresh k v acc Hk).
    rewrite IH; rewrite <- app_assoc; [done | exact Hnd].
Qed.

(** An [OrderedDict] built from items with distinct keys holds exactly
    these items, in their order. *)
Lemma OrderedDict_distinct {V : Type} (items : list (string * V)) :
  NoDup (map fst items) → OrderedDict items = items.
Proof. intros H. unfold OrderedDict. by rewrite fold_dict_set_fresh. Qed.

Lemma record_tags_distinct : NoDup record_tags.
Proof. apply (bool_decide_unpack _). by vm_compute. Qed.

Lemma get_grad_year_Ok (curr_year : Z) (year grade : string) :
  (year = "" → ∃ g, PyInt.parse grade = Some g
                    ∧ PyInt.too_long (12 - g + curr_year) = false) →
  ∃ grad_year, get_grad_year curr_year year grade = Ok grad_year.
Proof.
  intros H. destruct (String.eqb_spec year "") as [->|Hne].
  - destruct (H eq_refl) as (g & Hg & Hlong).
    rewrite get_grad_year_cases, Hg, Hlong. by eexists.
  - exists year. unfold get_grad_year.
    apply String.eqb_neq in Hne. by rewrite Hne.
Qed.

End BuilderFacts.

Section Binds.

Lemma bind_Ok {A B : Type} (m : outcome A) (f : A → outcome B) (b : B) :
  m ≫= f = Ok b → ∃ a, m = Ok a ∧ f a = Ok b.
Proof. destruct m as [a|e]; [by exists a | done]. Qed.

Lemma row_get_Ok (row : gmap string string) (key v : string) :
  row_get row key = Ok v ↔ row !! key = Some v.
Proof. unfold row_get. destruct (row !! key); split; congruence. Qed.

Lemma config_get_Ok (config : gmap string string) (option v : string) :
  config_get config option = Ok v ↔ config !! option = Some v.
Proof. unfold config_get. destruct (config !! option); split; congruence. Qed.

End Binds.

(** Take a successful chain of binds apart, one step after the other. *)
Ltac invert_binds H :=
  repeat (cbv zeta in H;
          let a := fresh "v" in
          let Ha := fresh "Hv" in
          apply bind_Ok in H as (a & Ha & H);
          first [apply row_get_Ok in Ha | apply config_get_Ok in Ha | idtac]).

(** Turn the keys a map is known to have into successful reads. *)
Ltac keys_to_reads H :=
  unfold has_keys in H;
  repeat (let v := fresh "v" in
          let Hv := fresh "Hv" in
          apply Forall_cons in H as [[v Hv] H];
          first [apply row_get_Ok in Hv | idtac]).

(** What a built record holds, read off the code of the loop body. *)
Lemma build_record_inv (config : gmap string string) (curr_year : Z)
    (row : gmap string string) (record : list (string * string)) :
  build_record config curr_year row = Ok record →
  ∃ id_prefix student_id,
    config !! "id_prefix" = Some id_prefix
    ∧ row !! "student_id" = Some student_id
    ∧ map fst record = record_tags
    ∧ dict_get "USER_ID" record = Some (id_prefix +:+ student_id)
    ∧ dict_get "USER_PIN" record
      = Some (PyStr.slice_from (-4) (id_prefix +:+ student_id))
    ∧ dict_get "USER_MAILINGADDR" record = Some "1".
Proof.
  intros H. unfold build_record in H.
  apply bind_Ok in H as ([[[user_id grad_year] zip_code] phone_number] & Hm & H).
  unfold modified_values in Hm. invert_binds Hm. injection Hm as <- <- <- <-.
  unfold ascii_record in H. invert_binds H.
  rewrite OrderedDict_distinct in H by exact record_tags_distinct.
  injection H as <-.
  eexists _, _. repeat split; try eassumption; reflexivity.
Qed.

(** A row with the required columns, read with a configuration that has
    the options of the data section, yields a record, provided the
    graduation year can be derived. *)
Lemma build_record_Ok (config : gmap string string) (curr_year : Z)
    (row : gmap string string) :
  has_keys row required_columns → has_keys config data_options →
  year_derivable curr_year row →
  ∃ record, build_record config curr_year row = Ok record.
Proof.
  intros Hrow Hcfg Hgrade.
  assert (∃ year grade grad_year,
            row_get row "grad_year" = Ok year ∧ row_get row "grade" = Ok grade
            ∧ get_grad_year curr_year year grade = Ok grad_year)
    as (year & grade & grad_year & Hy & Hg & Hgy).
  { unfold has_keys in Hrow.
    assert (is_Some (row !! "grad_year")) as [year Hy].
    { eapply Forall_forall in Hrow; [exact Hrow |]. set_solver. }
    assert (is_Some (row !! "grade")) as [grade Hg].
    { eapply Forall_forall in Hrow; [exact Hrow |]. set_solver. }
    destruct (get_grad_year_Ok curr_year year grade) as [grad_year Hgy].
    { intros ->. destruct (Hgrade Hy) as (grade' & g & Hg' & Hp & Hlong).
      exists g. split; [congruence | done]. }
    exists year, grade, grad_year. by rewrite !row_get_Ok. }
  keys_to_reads Hrow.
  unfold has_keys in Hcfg.
  repeat (let v := fresh "c" in
          let Hv := fresh "Hc" in
          apply Forall_cons in Hcfg as [[v Hv] Hcfg];
          apply config_get_Ok in Hv).
  unfold build_record, modified_values, ascii_record.
  repeat match goal with
  | E : row_get _ _ = Ok _ |- _ => rewrite E; clear E
  | E : config_get _ _ = Ok _ |- _ => rewrite E; clear E
  end.
  cbv beta iota zeta delta [mbind outcome_bind].
  rewrite Hgy. by eexists.
Qed.

Lemma sample_row_has_columns : has_keys sample_row required_columns.
Proof. repeat (constructor; [by eexists |]). constructor. Qed.

Lemma sample_row_k_has_columns : has_keys sample_row_k required_columns.
Proof. repeat (constructor; [by eexists |]). constructor. Qed.

Lemma sample_config_has_options : has_keys sample_config data_options.
Proof. repeat (constructor; [by eexists |]). constructor. Qed.

Lemma sample_row_year_derivable : year_derivable 2026 sample_row.
Proof.
  intros _. exists "9", 9. split; [reflexivity |].
  split; vm_compute; reflexivity.
Qed.

(** C1, as the specification states it, fails. The sample row has every
    required column and the sample configuration every option, and the
    record built from them has 28 tags, not 26. The same row with the
    grade code K and no graduation year has every required column too,
    and no record is built from it: [int] raises [ValueError]. *)
Lemma build_record_sample_28 :
  has_keys sample_row required_columns
  ∧ has_keys sample_row_k required_columns
  ∧ has_keys sample_config data_options
  ∧ (∃ record, build_record sample_config 2026 sample_row = Ok record
               ∧ length (map fst record) = 28%nat
               ∧ length (map fst record) ≠ 26%nat)
  ∧ build_record sample_config 2026 sample_row_k = Raise ValueError.
Proof.
  split; [exact sample_row_has_columns |].
  split; [exact sample_row_k_has_columns |].
  split; [exact sample_config_has_options |].
  split; [| by vm_compute].
  destruct (build_record sample_config 2026 sample_row) as [record|] eqn:E;
    [| by vm_compute in E].
  exists record. apply build_record_inv in E as (_ & _ & _ & _ & -> & _).
  split; [done |]. split; [reflexivity | discriminate].
Qed.

(** C1, amended. For every row that has all the required columns, with
    any configuration that has the options of the data section, and
    provided that, when the row gives no graduation year, [int] reads the
    grade and the year derived from it is within the limit of [str], a
    record is built, and it has exactly the 28 tags of section 4.2 in that
    order, [USER_ID] first and [USER_CHG_HIST_RULE] last, each of them
    once. *)
Theorem build_record_tags (config : gmap string string) (curr_year : Z)
    (row : gmap string string) :
  has_keys row required_columns → has_keys config data_options →
  year_derivable curr_year row →
  ∃ record, build_record config curr_year row = Ok record
    ∧ map fst record = [
        "USER_ID"; "USER_ROUTING_FLAG"; "USER_FIRST_NAME"; "USER_LAST_NAME";
        "USER_NAME_DSP_PREF"; "USER_BIRTH_DATE"; "USER_LIBRARY"; "USER_PROFILE";
        "USER_PIN"; "USER_ACCESS"; "USER_ENVIRONMENT"; "USER_CATEGORY1";
        "USER_CATEGORY11"; "USER_CATEGORY12"; "USER_PRIV_EXPIRES"; "USER_STATUS";
        "USER_MAILINGADDR"; "USER_ADDR1_BEGIN"; "STREET"; "CITY/STATE"; "ZIP";
        "PHONE"; "EMAIL"; "USER_ADDR1_END"; "USER_XINFO_BEGIN"; "NOTIFY_VIA";
        "USER_XINFO_END"; "USER_CHG_HIST_RULE"]
    ∧ length record = 28%nat
    ∧ NoDup (map fst record).
Proof.
  intros Hrow Hcfg Hgrade.
  destruct (build_record_Ok config curr_year row Hrow Hcfg Hgrade) as [record E].
  exists record. split; [exact E |].
  apply build_record_inv in E as (_ & _ & _ & _ & Htags & _).
  split; [exact Htags |]. split.
  - by rewrite <- (length_map fst), Htags.
  - rewrite Htags. exact record_tags_distinct.
Qed.

Lemma build_record_tags_witness :
  ∃ record, build_record sample_config 2026 sample_row = Ok record
    ∧ map fst record = record_tags
    ∧ length record = 28%nat
    ∧ NoDup (map fst record).
Proof.
  exact (build_record_tags sample_config 2026 sample_row
           sample_row_has_columns sample_config_has_options
           sample_row_year_derivable).
Defined.

(** ** The PIN and the mailing address flag *)

Section SliceFacts.

Implicit Types (s : string) (n : nat).

Lemma drop_length n s :
  String.length (PyStr.drop n s) = (String.length s - n)%nat.
Proof.
  revert s. induction n as [|n IH]; intros [|c s]; simpl; done.
Qed.

(** [drop n s] is what is left of [s] behind its first [n] characters. *)
Lemma drop_suffix n s :
  ∃ front, s = front +:+ PyStr.drop n s
           ∧ String.length front = Nat.min n (String.length s).
Proof.
  revert s. induction n as [|n IH]; intros s.
  - exists "". split; [done |]. by destruct s.
  - destruct s as [|c s].
    + by exists "".
    + destruct (IH s) as (front & Hs & Hlen).
      exists (String c front). simpl. rewrite str_app_cons, <- Hs.
      split; [done | by rewrite Hlen].
Qed.

(** [s[-4:]] starts four characters before the end, or at the start of
    a shorter string. *)
Lemma slice_last_four s :
  PyStr.slice_from (-4) s = PyStr.drop (String.length s - 4) s.
Proof.
  unfold PyStr.slice_from.
  change (-4 <? 0) with true. cbv beta iota. f_equal. lia.
Qed.

End SliceFacts.

(** C9. For every row from which a record is built, the [USER_PIN]
    field is [user_id[-4:]], where [user_id] is the configured prefix
    followed by the student id: the PIN is the end of the identifier, it
    has min(4, length) characters, and it is the whole identifier when
    that is shorter than 4 characters. *)
Theorem user_pin_last_four (config : gmap string string) (curr_year : Z)
    (row : gmap string string) (record : list (string * string)) :
  build_record config curr_year row = Ok record →
  ∃ id_prefix student_id pin front,
    config !! "id_prefix" = Some id_prefix
    ∧ row !! "student_id" = Some student_id
    ∧ dict_get "USER_ID" record = Some (id_prefix +:+ student_id)
    ∧ dict_get "USER_PIN" record = Some pin
    ∧ pin = PyStr.slice_from (-4) (id_prefix +:+ student_id)
    ∧ id_prefix +:+ student_id = front +:+ pin
    ∧ String.length pin = Nat.min 4 (String.length (id_prefix +:+ student_id))
    ∧ ((String.length (id_prefix +:+ student_id) < 4)%nat →
       pin = id_prefix +:+ student_id).
Proof.
  intros H.
  apply build_record_inv in H as (id_prefix & student_id & Hp & Hs & _ & Hid & Hpin & _).
  remember (id_prefix +:+ student_id) as user_id eqn:Euid.
  destruct (drop_suffix (String.length user_id - 4) user_id) as (front & Hfront & _).
  exists id_prefix, student_id, (PyStr.slice_from (-4) user_id), front.
  rewrite <- Euid. rewrite slice_last_four in *.
  repeat split; try done.
  - rewrite drop_length. lia.
  - intros Hshort.
    replace (String.length user_id - 4)%nat with 0%nat by lia. done.
Qed.

Lemma user_pin_last_four_witness :
  ∃ id_prefix student_id pin front,
    sample_config !! "id_prefix" = Some id_prefix
    ∧ sample_row !! "student_id" = Some student_id
    ∧ dict_get "USER_ID" sample_record = Some (id_prefix +:+ student_id)
    ∧ dict_get "USER_PIN" sample_record = Some pin
    ∧ pin = PyStr.slice_from (-4) (id_prefix +:+ student_id)
    ∧ id_prefix +:+ student_id = front +:+ pin
    ∧ String.length pin = Nat.min 4 (String.length (id_prefix +:+ student_id))
    ∧ ((String.length (id_prefix +:+ student_id) < 4)%nat →
       pin = id_prefix +:+ student_id).
Proof.
  apply (user_pin_last_four sample_config 2026 sample_row sample_record).
  vm_compute. reflexivity.
Defined.

(** C10. For every row and every configuration from which a record is
    built, the [USER_MAILINGADDR] field is the constant "1". The
    configuration is any map: nothing it holds changes the field. *)
Theorem mailing_addr_constant (config : gmap string string) (curr_year : Z)
    (row : gmap string string) (record : list (string * string)) :
  build_record config curr_year row = Ok record →
  dict_get "USER_MAILINGADDR" record = Some "1".
Proof.
  intros H. by apply build_record_inv in H as (_ & _ & _ & _ & _ & _ & _ & ?).
Qed.

Lemma mailing_addr_constant_witness :
  dict_get "USER_MAILINGADDR" sample_record = Some "1".
Proof.
  apply (mailing_addr_constant (<["USER_MAILINGADDR" := "0"]> sample_config)
           2026 sample_row sample_record).
  vm_compute. reflexivity.
Defined.

(** ** The output file *)

Section FileFacts.

Lemma write_items_run (items : list (string * string)) (file : string) :
  run (write_items items) file = (Ok tt, file +:+ record_text items).
Proof.
  revert file. induction items as [|[field value] items IH]; intros file.
  - simpl. by rewrite str_app_nil_r.
  - cbn [write_items record_text].
    change (run (write_value field value ≫= (fun _ => write_items items)) file)
      with (match run (write_value field value) file with
            | (Ok _, file') => run (write_items items) file'
            | (Raise e, file') => (Raise e, file')
            end).
    by rewrite write_value_run, IH, str_app_assoc.
Qed.

(** One iteration of the loop, for a row whose record is built,
    appends the block of that record. *)
Lemma process_row_run (config : gmap string string) (curr_year : Z)
    (row : gmap string string) (record : list (string * string))
    (file : string) :
  build_record config curr_year row = Ok record →
  run (process_row config curr_year row) file
  = (Ok tt, file +:+ record_block record).
Proof.
  intros H. unfold build_record in H.
  apply bind_Ok in H as ([[[user_id grad_year] zip_code] phone_number] & Hm & H).
  unfold process_row.
  cbv beta iota zeta delta [mbind IO_bind lift file_write run].
  rewrite Hm. cbv beta iota. rewrite H. cbv beta iota.
  pose proof (write_items_run record (file +:+ document_header)) as Hw.
  cbv beta iota zeta delta [run] in Hw. rewrite Hw.
  unfold record_block, document_header.
  by rewrite !str_app_assoc.
Qed.

End FileFacts.

(** C8. When a record is built from every row, the loop succeeds and
    appends to the file the blocks of these records in the order of the
    rows; each block is the line '*** DOCUMENT BOUNDARY ***', the line
    'FORM=LDUSER', the lines of the record and one empty line. *)
Theorem convert_output (config : gmap string string) (curr_year : Z)
    (rows : list (gmap string string))
    (records : list (list (string * string))) (file : string) :
  Forall2 (fun row record => build_record config curr_year row = Ok record)
    rows records →
  run (convert config curr_year rows) file
  = (Ok tt, file +:+ blocks_text records)
  ∧ Forall (fun record =>
      record_block record
      = "*** DOCUMENT BOUNDARY ***" +:+ PyStr.nl +:+ "FORM=LDUSER" +:+ PyStr.nl
        +:+ record_text record +:+ PyStr.nl) records.
Proof.
  intros H. split; [| by apply Forall_forall].
  revert file. induction H as [|row record rows records Hrow _ IH]; intros file.
  - simpl. by rewrite str_app_nil_r.
  - cbn [convert blocks_text].
    change (run (process_row config curr_year row
                 ≫= (fun _ => convert config curr_year rows)) file)
      with (match run (process_row config curr_year row) file with
            | (Ok _, file') => run (convert config curr_year rows) file'
            | (Raise e, file') => (Raise e, file')
            end).
    by rewrite (process_row_run _ _ _ record file Hrow), IH, str_app_assoc.
Qed.

Lemma convert_output_witness :
  run (convert sample_config 2026 [sample_row; sample_row]) ""
  = (Ok tt, "" +:+ blocks_text [sample_record; sample_record])
  ∧ Forall (fun record =>
      record_block record
      = "*** DOCUMENT BOUNDARY ***" +:+ PyStr.nl +:+ "FORM=LDUSER" +:+ PyStr.nl
        +:+ record_text record +:+ PyStr.nl) [sample_record; sample_record].
Proof.
  apply (convert_output sample_config 2026 [sample_row; sample_row]
           [sample_record; sample_record] "").
  repeat constructor; vm_compute; reflexivity.
Defined.

(** ** Retention *)

Section RetentionFacts.

Implicit Types (d : directory) (l : list (string * Z)) (x y : string * Z).

Lemma report_dates_fold (windows : bool) d (acc : list (string * Z)) :
  NoDup ((fst <$> acc) ++ (fst <$> filter is_report d)) →
  fold_left
    (fun report_dates entry =>
       let report := fst entry in
       if PyStr.endswith ".txt" report then
         let date := int_of_float (creation_date windows (snd entry)) in
         dict_set report date report_dates
       else report_dates)
    d acc
  = acc ++ (stamped windows <$> filter is_report d).
Proof.
  revert acc. induction d as [|e d IH]; intros acc Hnd.
  - simpl. by rewrite app_nil_r.
  - rewrite filter_cons in Hnd |- *. cbn [fold_left].
    destruct (decide (is_report e)) as [He|He]; unfold is_report in He.
    + rewrite He. cbv zeta.
      rewrite fmap_cons in Hnd.
      assert (fst e ∉ fst <$> acc) as Hfresh.
      { apply NoDup_app in Hnd as (_ & Hdisj & _).
        intros Hin. apply (Hdisj _ Hin). left. }
      rewrite dict_set_fresh by (by rewrite <- list_fmap_map in Hfresh || exact Hfresh).
      rewrite IH.
      * by rewrite <- app_assoc.
      * rewrite fmap_app. simpl. by rewrite <- app_assoc.
    + apply not_true_is_false in He. rewrite He. by apply IH.
Qed.

(** With distinct file names, the dict of [report_dates] lists the
    reports of the directory in its order, each with its timestamp. *)
Lemma report_dates_reports (windows : bool) d :
  NoDup (fst <$> d) →
  report_dates windows d = stamped windows <$> filter is_report d.
Proof.
  intros Hnd. unfold report_dates. rewrite report_dates_fold; [done |].
  simpl. eapply sublist_NoDup; [exact Hnd |].
  apply fmap_sublist, sublist_filter.
Qed.

Lemma insert_desc_perm x l : insert_desc x l ≡ₚ x :: l.
Proof.
  induction l as [|y l IH]; simpl; [done |].
  destruct (snd x <? snd y); [| done].
  rewrite IH. apply Permutation_swap.
Qed.

Lemma sorted_desc_perm l : sorted_desc l ≡ₚ l.
Proof.
  induction l as [|x l IH]; simpl; [done |].
  by rewrite insert_desc_perm, IH.
Qed.

Lemma insert_desc_sorted x l :
  StronglySorted not_older l → StronglySorted not_older (insert_desc x l).
Proof.
  induction l as [|y l IH]; intros Hs; simpl.
  - repeat constructor.
  - apply StronglySorted_inv in Hs as [Hl Hy].
    destruct (Z.ltb_spec (snd x) (snd y)) as [Hlt|Hge].
    + constructor; [by apply IH |].
      rewrite insert_desc_perm. constructor; [| done].
      unfold not_older. lia.
    + constructor; [by constructor |].
      constructor; [done |].
      eapply Forall_impl; [exact Hy |].
      unfold not_older. intros z Hz. lia.
Qed.

(** The sort puts the most recent reports first. *)
Lemma sorted_desc_sorted l : StronglySorted not_older (sorted_desc l).
Proof.
  induction l as [|x l IH]; simpl; [constructor | by apply insert_desc_sorted].
Qed.

(** Deleting a file the system lets go of takes its entry out of the
    directory, and nothing else. *)
Lemma try_remove_filter (removable : string → bool) d x :
  removable (fst x) = true →
  try_remove removable d x = filter (fun entry => fst entry ≠ fst x) d.
Proof.
  intros Hr. unfold try_remove, os_remove. rewrite Hr. simpl.
  destruct (existsb (String.eqb (fst x)) (fst <$> d)) eqn:E; [done |].
  symmetry. induction d as [|e d IH]; [done |].
  simpl in E. apply orb_false_iff in E as [He Hd].
  rewrite filter_cons. apply String.eqb_neq in He.
  rewrite decide_True by (intros Heq; by rewrite Heq in He).
  by rewrite IH.
Qed.

Lemma filter_all {A : Type} (P : A → Prop) `{!∀ a, Decision (P a)}
    (k : list A) :
  (∀ a, a ∈ k → P a) → filter P k = k.
Proof.
  induction k as [|a k IH]; intros Hall; [done |].
  rewrite filter_cons_True by (apply Hall; left).
  rewrite IH; [done |]. intros b Hb. apply Hall. by right.
Qed.

Lemma fold_try_remove (removable : string → bool) l d :
  (∀ x, x ∈ l → removable (fst x) = true) →
  fold_left (try_remove removable) l d
  = filter (fun entry => fst entry ∉ fst <$> l) d.
Proof.
  revert d. induction l as [|x l IH]; intros d Hr; simpl.
  - symmetry. apply filter_all. intros e _. apply not_elem_of_nil.
  - rewrite try_remove_filter by (apply Hr; left).
    rewrite IH by (intros y Hy; apply Hr; by right).
    rewrite list_filter_filter. apply list_filter_iff.
    intros e. rewrite not_elem_of_cons. tauto.
Qed.

Lemma stamped_fst (windows : bool) (k : directory) :
  fst <$> (stamped windows <$> k) = fst <$> k.
Proof. rewrite <- list_fmap_compose. by apply list_fmap_ext. Qed.

End RetentionFacts.

(** C7. In a directory with 15 files that have the suffix of the
    reports, whose creation timestamps in whole seconds are pairwise
    distinct, and which the system lets the script delete, the pass sorts
    the reports by descending timestamp, keeps the first 10 and deletes
    the other 5, each of which is older than every report it keeps. The
    directory afterwards is the directory before without these 5: the 10
    reports it keeps and every file without the suffix are still there. *)
Theorem retention_fifteen (windows : bool) (removable : string → bool)
    (d : directory) :
  NoDup (fst <$> d) →
  length (filter is_report d) = 15%nat →
  NoDup (snd <$> (stamped windows <$> filter is_report d)) →
  (∀ e, e ∈ filter is_report d → removable (fst e) = true) →
  let kept := retention_kept windows d in
  let doomed := retention_doomed windows d in
  length kept = 10%nat ∧ length doomed = 5%nat
  ∧ kept ++ doomed ≡ₚ stamped windows <$> filter is_report d
  ∧ StronglySorted not_older (kept ++ doomed)
  ∧ (∀ k x, k ∈ kept → x ∈ doomed → snd x < snd k)
  ∧ retention windows removable d
    = filter (fun entry => fst entry ∉ fst <$> doomed) d
  ∧ (∀ e, e ∈ d → fst e ∈ fst <$> kept → e ∈ retention windows removable d)
  ∧ (∀ e, e ∈ d → ¬ is_report e → e ∈ retention windows removable d).
Proof.
  intros Hnames Hlen Hts Hrem kept doomed.
  pose proof (report_dates_reports windows d Hnames) as Hr.
  assert (kept ++ doomed = sorted_desc (report_dates windows d)) as Hs.
  { apply take_drop. }
  assert (kept ++ doomed ≡ₚ stamped windows <$> filter is_report d) as Hperm.
  { by rewrite Hs, sorted_desc_perm, Hr. }
  assert (length (kept ++ doomed) = 15%nat) as Hl.
  { by rewrite Hperm, length_fmap. }
  assert (StronglySorted not_older (kept ++ doomed)) as Hsorted.
  { rewrite Hs. apply sorted_desc_sorted. }
  assert (∀ x, x ∈ doomed → ∃ e, e ∈ filter is_report d ∧ fst x = fst e) as Hdoomed.
  { intros x Hx.
    assert (x ∈ kept ++ doomed) as Hin by (apply elem_of_app; by right).
    rewrite Hperm in Hin. apply list_elem_of_fmap in Hin as (e & -> & He).
    by exists e. }
  assert (retention windows removable d
          = filter (fun entry => fst entry ∉ fst <$> doomed) d) as Hret.
  { unfold retention. apply fold_try_remove.
    intros x Hx. destruct (Hdoomed x Hx) as (e & He & ->). by apply Hrem. }
  assert (NoDup (fst <$> (kept ++ doomed))) as Hnd.
  { rewrite Hperm, stamped_fst. eapply sublist_NoDup; [exact Hnames |].
    apply fmap_sublist, sublist_filter. }
  rewrite Hs in Hl. fold kept doomed in Hl.
  split; [| split; [| split; [| split; [| split; [| split; [| split]]]]]].
  - unfold kept, retention_kept. rewrite length_take. lia.
  - unfold doomed, retention_doomed. cbv zeta. rewrite length_drop. lia.
  - exact Hperm.
  - exact Hsorted.
  - intros k x Hk Hx.
    apply StronglySorted_app in Hsorted as (Hle & _ & _).
    specialize (Hle k x Hk Hx). unfold not_older in Hle.
    rewrite <- Hperm, fmap_app in Hts.
    apply NoDup_app in Hts as (_ & Hdisj & _).
    assert (snd k ≠ snd x); [| lia].
    intros Heq. apply (Hdisj (snd k)).
    + apply list_elem_of_fmap. by exists k.
    + apply list_elem_of_fmap. by exists x.
  - exact Hret.
  - intros e He Hk. rewrite Hret. apply list_elem_of_filter. split; [| done].
    rewrite fmap_app in Hnd. apply NoDup_app in Hnd as (_ & Hdisj & _).
    by apply Hdisj.
  - intros e He Hnr. rewrite Hret. apply list_elem_of_filter. split; [| done].
    intros Hin. apply list_elem_of_fmap in Hin as (x & Hfst & Hx).
    destruct (Hdoomed x Hx) as (e' & He' & Hfst').
    apply list_elem_of_filter in He' as [Hrep _].
    apply Hnr. unfold is_report in *. by rewrite Hfst, Hfst'.
Qed.

Lemma retention_fifteen_witness :
  let kept := retention_kept false sample_directory in
  let doomed := retention_doomed false sample_directory in
  length kept = 10%nat ∧ length doomed = 5%nat
  ∧ kept ++ doomed ≡ₚ stamped false <$> filter is_report sample_directory
  ∧ StronglySorted not_older (kept ++ doomed)
  ∧ (∀ k x, k ∈ kept → x ∈ doomed → snd x < snd k)
  ∧ retention false (fun _ => true) sample_directory
    = filter (fun entry => fst entry ∉ fst <$> doomed) sample_directory
  ∧ (∀ e, e ∈ sample_directory → fst e ∈ fst <$> kept →
          e ∈ retention false (fun _ => true) sample_directory)
  ∧ (∀ e, e ∈ sample_directory → ¬ is_report e →
          e ∈ retention false (fun _ => true) sample_directory).
Proof.
  apply (retention_fifteen false (fun _ => true) sample_directory).
  - apply (bool_decide_unpack _). by vm_compute.
  - reflexivity.
  - apply (bool_decide_unpack _). by vm_compute.
  - reflexivity.
Defined.

(** ** More on the field transformers *)

Section TransformerFacts.

Implicit Types (s t : string) (c : ascii).

Lemma has_char_replace_same c new s :
  PyStr.has_char c new = false → PyStr.has_char c (PyStr.replace c new s) = false.
Proof.
  intros Hnew. induction s as [|a s IH]; [done |]. simpl.
  destruct (Ascii.eqb a c) eqn:E.
  - by rewrite has_char_app, Hnew, IH.
  - simpl. by rewrite E, IH.
Qed.

Lemma has_char_replace_other c old new s :
  PyStr.has_char c new = false → PyStr.has_char c s = false →
  PyStr.has_char c (PyStr.replace old new s) = false.
Proof.
  intros Hnew. induction s as [|a s IH]; [done |]. simpl.
  intros H. apply orb_false_iff in H as [Ha Hs].
  destruct (Ascii.eqb a old).
  - by rewrite has_char_app, Hnew, IH.
  - simpl. by rewrite Ha, IH.
Qed.

Lemma count_replace_other c old new s :
  c ≠ old →
  PyStr.count c (PyStr.replace old new s)
  = (PyStr.count c s + PyStr.count old s * PyStr.count c new)%nat.
Proof.
  intros Hne. induction s as [|a s IH]; [done |]. simpl.
  destruct (Ascii.eqb_spec a old) as [->|Ha].
  - rewrite count_app, IH.
    apply Ascii.eqb_neq in Hne. rewrite Ascii.eqb_sym in Hne. rewrite Hne. lia.
  - simpl. rewrite IH. lia.
Qed.

Lemma str_length_app s t :
  String.length (s +:+ t) = (String.length s + String.length t)%nat.
Proof.
  induction s as [|a s IH]; [done |].
  rewrite str_app_cons. simpl. by rewrite IH.
Qed.

Lemma length_replace old new s :
  (String.length (PyStr.replace old new s) + PyStr.count old s
   = String.length s + PyStr.count old s * String.length new)%nat.
Proof.
  induction s as [|a s IH]; [done |]. simpl.
  destruct (Ascii.eqb a old); [rewrite str_length_app | simpl]; lia.
Qed.

Lemma rstrip_all_space s :
  PyStr.all_chars PyStr.isspace s = true → PyStr.rstrip s = "".
Proof.
  induction s as [|a s IH]; [done |]. simpl.
  intros H. apply andb_true_iff in H as [Ha Hs].
  by rewrite (IH Hs), Ha.
Qed.

(** Whitespace after the text does not change what [rstrip] returns. *)
Lemma rstrip_app_space s t :
  PyStr.all_chars PyStr.isspace t = true → PyStr.rstrip (s +:+ t) = PyStr.rstrip s.
Proof.
  intros Ht. induction s as [|a s IH].
  - rewrite str_app_nil_l. by apply rstrip_all_space.
  - rewrite str_app_cons. simpl. by rewrite IH.
Qed.

End TransformerFacts.

(** X1. [transform_zip] returns a beginning of its input that has no
    hyphen, and applying it to its own result changes nothing. *)
Theorem transform_zip_idempotent (number : string) :
  (∃ rest, number = transform_zip number +:+ rest)
  ∧ PyStr.has_char "-" (transform_zip number) = false
  ∧ transform_zip (transform_zip number) = transform_zip number.
Proof.
  assert (PyStr.has_char "-" (transform_zip number) = false
          ∧ ∃ rest, number = transform_zip number +:+ rest) as [Hno Hpre].
  { destruct (PyStr.has_char "-" number) eqn:E.
    - destruct (has_char_first _ _ E) as (a & b & -> & Ha).
      change (String "-" b) with ("-" +:+ b).
      rewrite (transform_zip_before_hyphen a b Ha). split; [done |].
      by exists ("-" +:+ b).
    - unfold transform_zip. rewrite (split_head_absent _ _ E). simpl.
      split; [done |]. exists "". by rewrite str_app_nil_r. }
  split; [exact Hpre |]. split; [exact Hno |].
  unfold transform_zip at 1. by rewrite (split_head_absent _ _ Hno).
Qed.

(** X2. Whatever the input, the result of [transform_phone] has no
    parenthesis and no hyphen left. *)
Theorem transform_phone_no_punctuation (number : string) :
  PyStr.has_char "(" (transform_phone number) = false
  ∧ PyStr.has_char ")" (transform_phone number) = false
  ∧ PyStr.has_char "-" (transform_phone number) = false.
Proof.
  unfold transform_phone. split; [| split].
  - do 2 (apply has_char_replace_other; [done |]).
    by apply has_char_replace_same.
  - apply has_char_replace_other; [done |].
    by apply has_char_replace_same.
  - by apply has_char_replace_same.
Qed.

(** X3. A number without parentheses and hyphens goes through
    [transform_phone] unchanged; so the function applied to its own result
    changes nothing. *)
Theorem transform_phone_idempotent (number : string) :
  (PyStr.has_char "(" number = false → PyStr.has_char ")" number = false →
   PyStr.has_char "-" number = false → transform_phone number = number)
  ∧ transform_phone (transform_phone number) = transform_phone number.
Proof.
  assert (∀ s, PyStr.has_char "(" s = false → PyStr.has_char ")" s = false →
               PyStr.has_char "-" s = false → transform_phone s = s) as Hclean.
  { intros s H1 H2 H3. unfold transform_phone.
    by rewrite (replace_absent "(" "" s H1), (replace_absent ")" " " s H2),
      (replace_absent "-" " " s H3). }
  split; [apply Hclean |].
  apply Hclean.
  - unfold transform_phone.
    do 2 (apply has_char_replace_other; [done |]).
    by apply has_char_replace_same.
  - unfold transform_phone.
    apply has_char_replace_other; [done |].
    by apply has_char_replace_same.
  - unfold transform_phone. by apply has_char_replace_same.
Qed.

Lemma transform_phone_idempotent_witness :
  transform_phone "555 555 5555" = "555 555 5555".
Proof.
  apply (proj1 (transform_phone_idempotent "555 555 5555")); reflexivity.
Defined.

(** X4. [transform_phone] turns every closing parenthesis and every
    hyphen into one space and drops every opening parenthesis: the result
    is shorter than the input by the number of opening parentheses, it has
    as many more spaces as there were closing parentheses and hyphens, and
    every other character occurs as often as before. *)
Theorem transform_phone_counts (number : string) :
  (String.length (transform_phone number) + PyStr.count "(" number
   = String.length number)%nat
  ∧ (PyStr.count " " (transform_phone number)
     = PyStr.count " " number + PyStr.count ")" number + PyStr.count "-" number)%nat
  ∧ (∀ c : ascii, c ≠ "("%char → c ≠ ")"%char → c ≠ "-"%char → c ≠ " "%char →
       PyStr.count c (transform_phone number) = PyStr.count c number).
Proof.
  unfold transform_phone.
  set (s1 := PyStr.replace "(" "" number).
  set (s2 := PyStr.replace ")" " " s1).
  assert (∀ c : ascii, c ≠ "("%char → PyStr.count c s1 = PyStr.count c number) as H1.
  { intros c Hc. unfold s1. rewrite count_replace_other by done. simpl. lia. }
  assert (∀ c : ascii, c ≠ ")"%char →
            PyStr.count c s2
            = (PyStr.count c s1 + PyStr.count ")" s1 * PyStr.count c " ")%nat) as H2.
  { intros c Hc. unfold s2. by rewrite count_replace_other. }
  split; [| split].
  - pose proof (length_replace "(" "" number) as L1.
    pose proof (length_replace ")" " " s1) as L2.
    pose proof (length_replace "-" " " s2) as L3.
    fold s1 in L1. fold s2 in L2. simpl in L1, L2, L3. lia.
  - rewrite count_replace_other by done.
    rewrite (H2 " "%char), (H2 "-"%char) by done.
    rewrite !H1 by done. simpl. lia.
  - intros c Hc1 Hc2 Hc3 Hc4.
    rewrite count_replace_other by done.
    rewrite (H2 c) by done. rewrite (H1 c) by done.
    assert (PyStr.count c " " = 0%nat) as ->.
    { cbn [PyStr.count]. apply Ascii.eqb_neq in Hc4.
      rewrite Ascii.eqb_sym in Hc4. by rewrite Hc4. }
    lia.
Qed.

Lemma transform_phone_counts_witness :
  PyStr.count "5" (transform_phone "(555)555-5555") = PyStr.count "5" "(555)555-5555".
Proof.
  apply (proj2 (proj2 (transform_phone_counts "(555)555-5555"))); discriminate.
Defined.

(** X5. Whitespace at the end of a value never reaches the file:
    [write_value] writes the same line for a value and for the value
    followed by any run of whitespace. *)
Theorem write_value_trailing_whitespace (field value blanks file : string) :
  PyStr.all_chars PyStr.isspace blanks = true →
  run (write_value field (value +:+ blanks)) file
  = run (write_value field value) file.
Proof.
  intros H. rewrite !write_value_run. unfold field_line.
  by rewrite (rstrip_app_space value blanks H).
Qed.

Lemma write_value_trailing_whitespace_witness :
  run (write_value "STREET" ("12 MAIN ST" +:+ "   ")) ""
  = run (write_value "STREET" "12 MAIN ST") "".
Proof. apply write_value_trailing_whitespace. reflexivity. Defined.

(** ** Failures in the loop *)

Section FailureFacts.

Lemma bind_Raise {A B : Type} (m : outcome A) (f : A → outcome B) (e : exn) :
  m ≫= f = Raise e → m = Raise e ∨ ∃ a, m = Ok a ∧ f a = Raise e.
Proof.
  destruct m as [a|e']; intros H; simpl in H.
  - right. by exists a.
  - left. by injection H as ->.
Qed.

Lemma row_get_Raise (row : gmap string string) (key : string) (e : exn) :
  row_get row key = Raise e ↔ e = KeyError key ∧ row !! key = None.
Proof.
  unfold row_get. destruct (row !! key); split; try done.
  - by intros [_ ?].
  - by intros [= <-].
  - by intros [-> _].
Qed.

Lemma config_get_Raise (config : gmap string string) (option : string) (e : exn) :
  config_get config option = Raise e
  ↔ e = NoOptionError (PyStr.lower option) ∧ config !! option = None.
Proof.
  unfold config_get. destruct (config !! option); split; try done.
  - by intros [_ ?].
  - by intros [= <-].
  - by intros [-> _].
Qed.

Lemma get_grad_year_Raise (curr_year : Z) (year grade : string) (e : exn) :
  get_grad_year curr_year year grade = Raise e →
  e = ValueError ∧ year = ""
  ∧ (PyInt.parse grade = None
     ∨ ∃ g, PyInt.parse grade = Some g
            ∧ PyInt.too_long (12 - g + curr_year) = true).
Proof.
  destruct (String.eqb_spec year "") as [->|Hne].
  - rewrite get_grad_year_cases. destruct (PyInt.parse grade) as [g|].
    + destruct (PyInt.too_long (12 - g + curr_year)) eqn:Hlong;
        [| intros H; discriminate H].
      intros [= <-]. split; [reflexivity |]. split; [reflexivity |].
      right. exists g. split; [reflexivity | exact Hlong].
    + intros [= <-]. split; [done |]. split; [done | by left].
  - unfold get_grad_year. apply String.eqb_neq in Hne. by rewrite Hne.
Qed.

Lemma appends_ret {A : Type} (a : A) : appends (mret a).
Proof. intros file. simpl. by rewrite str_app_nil_r. Qed.

Lemma appends_lift {A : Type} (m : outcome A) : appends (lift m).
Proof. intros file. simpl. by rewrite str_app_nil_r. Qed.

Lemma appends_file_write (text : string) : appends (file_write text).
Proof. intros file. done. Qed.

Lemma appends_bind {A B : Type} (io : IO A) (k : A → IO B) :
  appends io → (∀ a, appends (k a)) → appends (io ≫= k).
Proof.
  intros Hio Hk file.
  change (run (io ≫= k) file)
    with (match run io file with
          | (Ok a, file') => run (k a) file'
          | (Raise e, file') => (Raise e, file')
          end).
  change (run (io ≫= k) "")
    with (match run io "" with
          | (Ok a, file') => run (k a) file'
          | (Raise e, file') => (Raise e, file')
          end).
  rewrite (Hio file). destruct (run io "") as [[a|e] t]; simpl; [| done].
  rewrite (Hk a (file +:+ t)), (Hk a t). simpl. by rewrite str_app_assoc.
Qed.

Lemma appends_write_value (field value : string) : appends (write_value field value).
Proof. intros file. by rewrite !write_value_run. Qed.

Lemma appends_write_items (items : list (string * string)) :
  appends (write_items items).
Proof. intros file. by rewrite !write_items_run. Qed.

Lemma appends_process_row (config : gmap string string) (curr_year : Z)
    (row : gmap string string) :
  appends (process_row config curr_year row).
Proof.
  unfold process_row.
  apply appends_bind; [apply appends_lift |].
  intros [[[user_id grad_year] zip_code] phone_number].
  apply appends_bind; [apply appends_file_write | intros _].
  apply appends_bind; [apply appends_lift | intros record].
  apply appends_bind; [apply appends_write_items | intros _].
  apply appends_file_write.
Qed.

(** A row from which no record is built makes the iteration raise the
    same exception; by then the iteration has written nothing, or the two
    lines of the header. *)
Lemma process_row_Raise (config : gmap string string) (curr_year : Z)
    (row : gmap string string) (e : exn) (file : string) :
  build_record config curr_year row = Raise e →
  ∃ partial, run (process_row config curr_year row) file = (Raise e, file +:+ partial)
             ∧ (partial = "" ∨ partial = document_header).
Proof.
  intros H. unfold build_record in H. unfold process_row.
  cbv beta iota zeta delta [mbind IO_bind lift file_write run].
  apply bind_Raise in H as [H | ([[[user_id grad_year] zip_code] phone_number] & Hm & H)].
  - rewrite H. exists "". split; [by rewrite str_app_nil_r | by left].
  - rewrite Hm. cbv beta iota. rewrite H. cbv beta iota.
    exists document_header. split; [done | by right].
Qed.

End FailureFacts.

(** X6. The loop only appends to the file: for all rows, whether they
    can be converted or not, what is in the file before stays at its
    place, and the text added and the outcome do not depend on it. *)
Theorem convert_appends (config : gmap string string) (curr_year : Z)
    (rows : list (gmap string string)) (file : string) :
  run (convert config curr_year rows) file
  = (fst (run (convert config curr_year rows) ""),
     file +:+ snd (run (convert config curr_year rows) "")).
Proof.
  revert file. change (appends (convert config curr_year rows)).
  induction rows as [|row rows IH]; [apply appends_ret |].
  cbn [convert]. apply appends_bind; [apply appends_process_row | by intros _].
Qed.

(** X7. When a value read at the top of the loop body is missing (one
    of the columns zip, phone_number, grad_year, grade, student_id, or the
    option id_prefix) or the grade cannot be read, the iteration raises
    before it writes: the file is left as it was. When these are there and
    a key read for the record is missing, the iteration raises after the
    header: the two header lines are in the file, without a record. *)
Theorem process_row_failure (config : gmap string string) (curr_year : Z)
    (row : gmap string string) (e : exn) (file : string) :
  (modified_values config curr_year row = Raise e →
   run (process_row config curr_year row) file = (Raise e, file))
  ∧ (∀ user_id grad_year zip_code phone_number,
       modified_values config curr_year row
       = Ok (user_id, grad_year, zip_code, phone_number) →
       ascii_record config row user_id grad_year zip_code phone_number = Raise e →
       run (process_row config curr_year row) file
       = (Raise e,
          file +:+ "*** DOCUMENT BOUNDARY ***" +:+ PyStr.nl
               +:+ "FORM=LDUSER" +:+ PyStr.nl)).
Proof.
  split.
  - intros H. unfold process_row.
    cbv beta iota zeta delta [mbind IO_bind lift file_write run].
    by rewrite H.
  - intros user_id grad_year zip_code phone_number Hm H. unfold process_row.
    cbv beta iota zeta delta [mbind IO_bind lift file_write run].
    rewrite Hm. cbv beta iota. by rewrite H.
Qed.

Lemma process_row_failure_witness :
  run (process_row sample_config 2026 sample_row_k) "" = (Raise ValueError, "")
  ∧ run (process_row (delete "NOTIFY_VIA" sample_config) 2026 sample_row) ""
    = (Raise (NoOptionError "notify_via"),
       "" +:+ "*** DOCUMENT BOUNDARY ***" +:+ PyStr.nl +:+ "FORM=LDUSER" +:+ PyStr.nl).
Proof.
  split.
  - apply (proj1 (process_row_failure sample_config 2026 sample_row_k ValueError "")).
    vm_compute. reflexivity.
  - apply (proj2 (process_row_failure (delete "NOTIFY_VIA" sample_config) 2026
                    sample_row (NoOptionError "notify_via") "")
             "S123456" "2029" "62704" "555 555 5555").
    + vm_compute. reflexivity.
    + vm_compute. reflexivity.
Defined.

(** X8. The loop stops at the first row from which no record is built:
    it raises the exception of that row, the blocks of the rows before it
    are in the file, after them nothing or the two header lines, and
    nothing of the rows that follow. *)
Theorem convert_stops_at_failure (config : gmap string string) (curr_year : Z)
    (good : list (gmap string string))
    (records : list (list (string * string)))
    (bad : gmap string string) (rest : list (gmap string string))
    (e : exn) (file : string) :
  Forall2 (fun row record => build_record config curr_year row = Ok record)
    good records →
  build_record config curr_year bad = Raise e →
  ∃ partial,
    run (convert config curr_year (good ++ bad :: rest)) file
    = (Raise e, file +:+ blocks_text records +:+ partial)
    ∧ (partial = ""
       ∨ partial = "*** DOCUMENT BOUNDARY ***" +:+ PyStr.nl
                   +:+ "FORM=LDUSER" +:+ PyStr.nl).
Proof.
  intros Hgood Hbad. revert file.
  induction Hgood as [|row record good records Hrow _ IH]; intros file.
  - destruct (process_row_Raise config curr_year bad e file Hbad)
      as (partial & Hrun & Hpartial).
    exists partial. split; [| exact Hpartial].
    cbn [app convert blocks_text].
    change (run (process_row config curr_year bad
                 ≫= (fun _ => convert config curr_year rest)) file)
      with (match run (process_row config curr_year bad) file with
            | (Ok _, file') => run (convert config curr_year rest) file'
            | (Raise e, file') => (Raise e, file')
            end).
    by rewrite Hrun.
  - destruct (IH (file +:+ record_block record)) as (partial & Hrun & Hpartial).
    exists partial. split; [| exact Hpartial].
    cbn [app convert blocks_text].
    change (run (process_row config curr_year row
                 ≫= (fun _ => convert config curr_year (good ++ bad :: rest))) file)
      with (match run (process_row config curr_year row) file with
            | (Ok _, file') =>
                run (convert config curr_year (good ++ bad :: rest)) file'
            | (Raise e, file') => (Raise e, file')
            end).
    rewrite (process_row_run _ _ _ record file Hrow), Hrun.
    by rewrite !str_app_assoc.
Qed.

Lemma convert_stops_at_failure_witness :
  ∃ partial,
    run (convert sample_config 2026 ([sample_row] ++ sample_row_k :: [sample_row])) ""
    = (Raise ValueError, "" +:+ blocks_text [sample_record] +:+ partial)
    ∧ (partial = ""
       ∨ partial = "*** DOCUMENT BOUNDARY ***" +:+ PyStr.nl
                   +:+ "FORM=LDUSER" +:+ PyStr.nl).
Proof.
  apply (convert_stops_at_failure sample_config 2026 [sample_row] [sample_record]
           sample_row_k [sample_row] ValueError "").
  - constructor; [vm_compute; reflexivity | constructor].
  - vm_compute. reflexivity.
Defined.

(** ** When a record is built, and what it holds *)

Section RecordFacts.

Variables (config row : gmap string string).

Local Abbreviation cfg k := (default "" (config !! k)).
Local Abbreviation col k := (default "" (row !! k)).

Lemma modified_values_inv (curr_year : Z)
    (user_id grad_year zip_code phone_number : string) :
  modified_values config curr_year row
  = Ok (user_id, grad_year, zip_code, phone_number) →
  ∃ zip phone year grade id_prefix student_id,
    row !! "zip" = Some zip ∧ row !! "phone_number" = Some phone
    ∧ row !! "grad_year" = Some year ∧ row !! "grade" = Some grade
    ∧ config !! "id_prefix" = Some id_prefix
    ∧ row !! "student_id" = Some student_id
    ∧ get_grad_year curr_year year grade = Ok grad_year
    ∧ user_id = id_prefix +:+ student_id
    ∧ zip_code = transform_zip zip
    ∧ phone_number = transform_phone phone.
Proof.
  intros Hm. unfold modified_values in Hm. invert_binds Hm.
  injection Hm as <- <- <- <-. by eexists _, _, _, _, _, _.
Qed.

(** The record literal, with the values it reads. *)
Lemma ascii_record_inv (user_id grad_year zip_code phone_number : string)
    (record : list (string * string)) :
  ascii_record config row user_id grad_year zip_code phone_number = Ok record →
  has_keys config
    ["USER_ROUTING_FLAG"; "USER_NAME_DSP_PREF"; "USER_LIBRARY"; "USER_PROFILE";
     "USER_ACCESS"; "USER_ENVIRONMENT"; "USER_CATEGORY1"; "USER_CATEGORY11";
     "expire_day"; "USER_STATUS"; "NOTIFY_VIA"; "USER_CHG_HIST_RULE"]
  ∧ has_keys row
      ["first_name"; "last_name"; "birthdate"; "street"; "city"; "state"; "email"]
  ∧ record = [
      ("USER_ID", user_id);
      ("USER_ROUTING_FLAG", cfg "USER_ROUTING_FLAG");
      ("USER_FIRST_NAME", col "first_name");
      ("USER_LAST_NAME", col "last_name");
      ("USER_NAME_DSP_PREF", cfg "USER_NAME_DSP_PREF");
      ("USER_BIRTH_DATE", col "birthdate");
      ("USER_LIBRARY", cfg "USER_LIBRARY");
      ("USER_PROFILE", cfg "USER_PROFILE");
      ("USER_PIN", PyStr.slice_from (-4) user_id);
      ("USER_ACCESS", cfg "USER_ACCESS");
      ("USER_ENVIRONMENT", cfg "USER_ENVIRONMENT");
      ("USER_CATEGORY1", cfg "USER_CATEGORY1");
      ("USER_CATEGORY11", cfg "USER_CATEGORY11");
      ("USER_CATEGORY12", grad_year);
      ("USER_PRIV_EXPIRES", grad_year +:+ cfg "expire_day");
      ("USER_STATUS", cfg "USER_STATUS");
      ("USER_MAILINGADDR", "1");
      ("USER_ADDR1_BEGIN", "");
      ("STREET", col "street");
      ("CITY/STATE", col "city" +:+ " " +:+ col "state");
      ("ZIP", zip_code);
      ("PHONE", phone_number);
      ("EMAIL", col "email");
      ("USER_ADDR1_END", "");
      ("USER_XINFO_BEGIN", "");
      ("NOTIFY_VIA", cfg "NOTIFY_VIA");
      ("USER_XINFO_END", "");
      ("USER_CHG_HIST_RULE", cfg "USER_CHG_HIST_RULE")].
Proof.
  intros H. unfold ascii_record in H. invert_binds H.
  rewrite OrderedDict_distinct in H by exact record_tags_distinct.
  injection H as <-.
  split; [| split].
  - unfold has_keys. repeat (constructor; [by eexists |]). constructor.
  - unfold has_keys. repeat (constructor; [by eexists |]). constructor.
  - repeat match goal with E : _ !! _ = Some _ |- _ => rewrite E; clear E end.
    reflexivity.
Qed.

End RecordFacts.

Lemma build_record_split (config : gmap string string) (curr_year : Z)
    (row : gmap string string) (record : list (string * string)) :
  build_record config curr_year row = Ok record →
  ∃ user_id grad_year zip_code phone_number,
    modified_values config curr_year row
    = Ok (user_id, grad_year, zip_code, phone_number)
    ∧ ascii_record config row user_id grad_year zip_code phone_number = Ok record.
Proof.
  intros H. unfold build_record in H.
  apply bind_Ok in H as ([[[user_id grad_year] zip_code] phone_number] & Hm & H).
  by exists user_id, grad_year, zip_code, phone_number.
Qed.

(** X9. For a configuration that has its data section and whose
    values interpolate: a record is built from a row exactly when the row
    has the twelve required columns, the section has the thirteen options
    the loop reads, and, in case the graduation year of the row is empty,
    [int] reads the grade and the year derived from it is within the limit
    of [str]. *)
Theorem build_record_Ok_iff (config : gmap string string) (curr_year : Z)
    (row : gmap string string) :
  (∃ record, build_record config curr_year row = Ok record)
  ↔ has_keys row required_columns ∧ has_keys config data_options
    ∧ year_derivable curr_year row.
Proof.
  split.
  - intros [record H].
    apply build_record_split in H as (user_id & grad_year & zip_code & phone_number & Hm & H).
    apply modified_values_inv in Hm
      as (zip & phone & year & grade & id_prefix & student_id
          & Hzip & Hphone & Hyear & Hgrade & Hprefix & Hsid & Hgy & _).
    apply ascii_record_inv in H as (Hcfg & Hrow & _).
    unfold has_keys in Hcfg, Hrow.
    repeat (apply Forall_cons in Hcfg as [? Hcfg]).
    repeat (apply Forall_cons in Hrow as [? Hrow]).
    split; [| split].
    + unfold has_keys, required_columns.
      repeat (constructor; [first [assumption | by eexists] |]). constructor.
    + unfold has_keys, data_options.
      repeat (constructor; [first [assumption | by eexists] |]). constructor.
    + intros Hempty. assert (year = "") as -> by congruence.
      rewrite get_grad_year_cases in Hgy.
      destruct (PyInt.parse grade) as [g|] eqn:Hparse; [| discriminate Hgy].
      destruct (PyInt.too_long (12 - g + curr_year)) eqn:Hlong;
        [discriminate Hgy |].
      exists grade, g. split; [exact Hgrade |]. split; [exact Hparse | exact Hlong].
  - intros (Hrow & Hcfg & Hgrade). by apply build_record_Ok.
Qed.

Lemma build_record_Ok_iff_witness :
  (∃ record, build_record sample_config 2026 sample_row = Ok record)
  ∧ (has_keys sample_row_k required_columns ∧ has_keys sample_config data_options
     ∧ year_derivable 2026 sample_row_k → False).
Proof.
  split.
  - apply (proj2 (build_record_Ok_iff sample_config 2026 sample_row)).
    split; [exact sample_row_has_columns |].
    split; [exact sample_config_has_options | exact sample_row_year_derivable].
  - intros H.
    apply (proj2 (build_record_Ok_iff sample_config 2026 sample_row_k)) in H
      as [record H].
    vm_compute in H. discriminate H.
Defined.

(** One failing step of a chain of reads: name the missing key. *)
Ltac missing_key H :=
  first
    [ apply row_get_Raise in H as [-> H];
      left; eexists; split; [reflexivity | split; [unfold required_columns, data_options; by repeat constructor | exact H]]
    | apply config_get_Raise in H as [-> H];
      right; left; eexists; split; [reflexivity | split; [unfold required_columns, data_options; by repeat constructor | exact H]] ].

Ltac raise_steps H :=
  repeat (cbv zeta in H;
          let v := fresh "v" in
          let Hv := fresh "Hv" in
          apply bind_Raise in H as [H | (v & Hv & H)];
          [ missing_key H
          | first [apply row_get_Ok in Hv | apply config_get_Ok in Hv | idtac] ]).

(** X10. For a row whose cells are strings and a configuration that
    has its data section and whose values interpolate: when no record is
    built from the row, the exception tells why. A [KeyError] names a required column the row does
    not have; a [NoOptionError] names, in small letters, an option of the
    data section the configuration does not have; a [ValueError] means
    that the graduation year of the row is empty and that [int] cannot
    read its grade or the year derived from it is beyond the limit of
    [str]. *)
Theorem build_record_Raise (config : gmap string string) (curr_year : Z)
    (row : gmap string string) (e : exn) :
  build_record config curr_year row = Raise e →
  (∃ column, e = KeyError column ∧ column ∈ required_columns
             ∧ row !! column = None)
  ∨ (∃ option, e = NoOptionError (PyStr.lower option) ∧ option ∈ data_options
               ∧ config !! option = None)
  ∨ (e = ValueError ∧ row !! "grad_year" = Some ""
     ∧ ∃ grade, row !! "grade" = Some grade
         ∧ (PyInt.parse grade = None
            ∨ ∃ g, PyInt.parse grade = Some g
                   ∧ PyInt.too_long (12 - g + curr_year) = true)).
Proof.
  intros H. unfold build_record in H.
  apply bind_Raise in H as [H | ([[[user_id grad_year] zip_code] phone_number] & _ & H)].
  - unfold modified_values in H.
    do 4 (cbv zeta in H;
          let v := fresh "v" in
          let Hv := fresh "Hv" in
          apply bind_Raise in H as [H | (v & Hv & H)];
          [ missing_key H | apply row_get_Ok in Hv ]).
    cbv zeta in H. apply bind_Raise in H as [H | (gy & _ & H)].
    + apply get_grad_year_Raise in H as (-> & -> & Hparse).
      right; right. split; [done |]. split; [done |]. by eexists.
    + raise_steps H. discriminate H.
  - unfold ascii_record in H. raise_steps H. discriminate H.
Qed.

Lemma build_record_Raise_witness :
  (∃ column, NoOptionError "notify_via" = KeyError column
             ∧ column ∈ required_columns ∧ sample_row !! column = None)
  ∨ (∃ option, NoOptionError "notify_via" = NoOptionError (PyStr.lower option)
               ∧ option ∈ data_options
               ∧ delete "NOTIFY_VIA" sample_config !! option = None)
  ∨ (NoOptionError "notify_via" = ValueError
     ∧ sample_row !! "grad_year" = Some ""
     ∧ ∃ grade, sample_row !! "grade" = Some grade
         ∧ (PyInt.parse grade = None
            ∨ ∃ g, PyInt.parse grade = Some g
                   ∧ PyInt.too_long (12 - g + 2026) = true)).
Proof.
  apply (build_record_Raise (delete "NOTIFY_VIA" sample_config) 2026 sample_row).
  vm_compute. reflexivity.
Defined.

(** Evaluate a lookup in a record literal and close the goal with the
    reads at hand. *)
Ltac read_field :=
  cbv beta iota;
  lazymatch goal with
  | |- dict_get ?tag ?record = _ =>
      let x := eval cbv [dict_get String.eqb Ascii.eqb Bool.eqb] in (dict_get tag record) in
      change (dict_get tag record) with x
  end;
  repeat match goal with E : _ !! _ = Some _ |- _ => rewrite E end;
  reflexivity.

(** X11. In every record that is built, the eleven fields named after
    an option of the data section hold the configured value as it is, and
    the first name, last name, birth date, street and email fields hold the
    cell of the row as it is; city and state are joined by one space. *)
Theorem record_copies_inputs (config : gmap string string) (curr_year : Z)
    (row : gmap string string) (record : list (string * string)) :
  build_record config curr_year row = Ok record →
  Forall (fun tag => dict_get tag record = config !! tag)
    ["USER_ROUTING_FLAG"; "USER_NAME_DSP_PREF"; "USER_LIBRARY"; "USER_PROFILE";
     "USER_ACCESS"; "USER_ENVIRONMENT"; "USER_CATEGORY1"; "USER_CATEGORY11";
     "USER_STATUS"; "NOTIFY_VIA"; "USER_CHG_HIST_RULE"]
  ∧ Forall (fun '(tag, column) => dict_get tag record = row !! column)
      [("USER_FIRST_NAME", "first_name"); ("USER_LAST_NAME", "last_name");
       ("USER_BIRTH_DATE", "birthdate"); ("STREET", "street"); ("EMAIL", "email")]
  ∧ (∃ city state, row !! "city" = Some city ∧ row !! "state" = Some state
       ∧ dict_get "CITY/STATE" record = Some (city +:+ " " +:+ state)).
Proof.
  intros H.
  apply build_record_split in H as (user_id & grad_year & zip_code & phone_number & _ & H).
  apply ascii_record_inv in H as (Hcfg & Hrow & ->).
  unfold has_keys in Hcfg, Hrow.
  repeat (let v := fresh "v" in let Hv := fresh "Hv" in
          apply Forall_cons in Hcfg as [[v Hv] Hcfg]).
  repeat (let v := fresh "v" in let Hv := fresh "Hv" in
          apply Forall_cons in Hrow as [[v Hv] Hrow]).
  split; [| split].
  - repeat (apply Forall_cons; split); [.. | constructor]; read_field.
  - repeat (apply Forall_cons; split); [.. | constructor]; read_field.
  - match goal with
    | Hc : row !! "city" = Some ?c, Hs : row !! "state" = Some ?s |- _ =>
        exists c, s; split; [exact Hc | split; [exact Hs | read_field]]
    end.
Qed.

Lemma record_copies_inputs_witness :
  Forall (fun tag => dict_get tag sample_record = sample_config !! tag)
    ["USER_ROUTING_FLAG"; "USER_NAME_DSP_PREF"; "USER_LIBRARY"; "USER_PROFILE";
     "USER_ACCESS"; "USER_ENVIRONMENT"; "USER_CATEGORY1"; "USER_CATEGORY11";
     "USER_STATUS"; "NOTIFY_VIA"; "USER_CHG_HIST_RULE"]
  ∧ Forall (fun '(tag, column) => dict_get tag sample_record = sample_row !! column)
      [("USER_FIRST_NAME", "first_name"); ("USER_LAST_NAME", "last_name");
       ("USER_BIRTH_DATE", "birthdate"); ("STREET", "street"); ("EMAIL", "email")]
  ∧ (∃ city state, sample_row !! "city" = Some city ∧ sample_row !! "state" = Some state
       ∧ dict_get "CITY/STATE" sample_record = Some (city +:+ " " +:+ state)).
Proof.
  apply (record_copies_inputs sample_config 2026 sample_row sample_record).
  vm_compute. reflexivity.
Defined.

(** X12. In every record that is built, the ZIP field is the cell of the
    row cut at its first hyphen and has no hyphen, the PHONE field has no
    parenthesis and no hyphen, the expiration field is the graduation year
    field followed by the configured expiration day, and the graduation
    year field is the cell of the row whenever that is not empty. *)
Theorem record_derived_fields (config : gmap string string) (curr_year : Z)
    (row : gmap string string) (record : list (string * string)) :
  build_record config curr_year row = Ok record →
  ∃ zip phone year grad_year expire_day,
    row !! "zip" = Some zip ∧ row !! "phone_number" = Some phone
    ∧ row !! "grad_year" = Some year ∧ config !! "expire_day" = Some expire_day
    ∧ dict_get "ZIP" record = Some (transform_zip zip)
    ∧ PyStr.has_char "-" (transform_zip zip) = false
    ∧ dict_get "PHONE" record = Some (transform_phone phone)
    ∧ PyStr.has_char "(" (transform_phone phone) = false
    ∧ PyStr.has_char ")" (transform_phone phone) = false
    ∧ PyStr.has_char "-" (transform_phone phone) = false
    ∧ dict_get "USER_CATEGORY12" record = Some grad_year
    ∧ dict_get "USER_PRIV_EXPIRES" record = Some (grad_year +:+ expire_day)
    ∧ (year ≠ "" → grad_year = year).
Proof.
  intros H.
  apply build_record_split in H as (user_id & grad_year & zip_code & phone_number & Hm & H).
  apply modified_values_inv in Hm
    as (zip & phone & year & grade & id_prefix & student_id
        & Hzip & Hphone & Hyear & Hgrade & Hprefix & Hsid & Hgy & _ & -> & ->).
  apply ascii_record_inv in H as (Hcfg & _ & ->).
  assert (is_Some (config !! "expire_day")) as [expire_day Hday].
  { unfold has_keys in Hcfg. eapply Forall_forall in Hcfg; [exact Hcfg |].
    by repeat constructor. }
  exists zip, phone, year, grad_year, expire_day.
  rewrite Hday.
  assert (PyStr.has_char "-" (transform_zip zip) = false) as Hz.
  { destruct (PyStr.has_char "-" zip) eqn:E.
    - destruct (has_char_first _ _ E) as (a & b & -> & Ha).
      change (String "-" b) with ("-" +:+ b).
      by rewrite (transform_zip_before_hyphen a b Ha).
    - unfold transform_zip. by rewrite (split_head_absent _ _ E). }
  repeat split; try done.
  - unfold transform_phone.
    do 2 (apply has_char_replace_other; [done |]).
    by apply has_char_replace_same.
  - unfold transform_phone.
    apply has_char_replace_other; [done |].
    by apply has_char_replace_same.
  - unfold transform_phone. by apply has_char_replace_same.
  - intros Hne. unfold get_grad_year in Hgy.
    apply String.eqb_neq in Hne. rewrite Hne in Hgy. simpl in Hgy. congruence.
Qed.

Lemma record_derived_fields_witness :
  ∃ zip phone year grad_year expire_day,
    sample_row !! "zip" = Some zip ∧ sample_row !! "phone_number" = Some phone
    ∧ sample_row !! "grad_year" = Some year
    ∧ sample_config !! "expire_day" = Some expire_day
    ∧ dict_get "ZIP" sample_record = Some (transform_zip zip)
    ∧ PyStr.has_char "-" (transform_zip zip) = false
    ∧ dict_get "PHONE" sample_record = Some (transform_phone phone)
    ∧ PyStr.has_char "(" (transform_phone phone) = false
    ∧ PyStr.has_char ")" (transform_phone phone) = false
    ∧ PyStr.has_char "-" (transform_phone phone) = false
    ∧ dict_get "USER_CATEGORY12" sample_record = Some grad_year
    ∧ dict_get "USER_PRIV_EXPIRES" sample_record = Some (grad_year +:+ expire_day)
    ∧ (year ≠ "" → grad_year = year).
Proof.
  apply (record_derived_fields sample_config 2026 sample_row sample_record).
  vm_compute. reflexivity.
Defined.

(** ** More on the retention pass *)

Section RetentionMore.

Implicit Types (d : directory) (l : list (string * Z)) (x y : string * Z).

Lemma dict_set_keys {V : Type} (k : string) (v : V) (dict : list (string * V)) :
  fst <$> dict_set k v dict
  = if decide (k ∈ fst <$> dict) then fst <$> dict else (fst <$> dict) ++ [k].
Proof.
  induction dict as [|[k' v'] dict IH]; [done |].
  cbn [dict_set]. destruct (String.eqb_spec k' k) as [->|Hne].
  - rewrite decide_True by (rewrite fmap_cons; left). done.
  - rewrite !fmap_cons, IH. cbn [fst].
    destruct (decide (k ∈ fst <$> dict)) as [Hin|Hin].
    + rewrite decide_True by (by right). done.
    + rewrite decide_False; [done |].
      intros [?|?]%elem_of_cons; congruence.
Qed.

Lemma dict_set_elem_of {V : Type} (k : string) (v : V) (dict : list (string * V))
    (item : string * V) :
  item ∈ dict_set k v dict → item = (k, v) ∨ item ∈ dict.
Proof.
  induction dict as [|[k' v'] dict IH]; cbn [dict_set].
  - intros ->%list_elem_of_singleton. by left.
  - destruct (String.eqb_spec k' k) as [->|Hne].
    + intros [->|?]%elem_of_cons; [by left | right; by right].
    + intros [->|Hin]%elem_of_cons; [right; by left |].
      destruct (IH Hin) as [->|?]; [by left | right; by right].
Qed.

Lemma dict_set_length {V : Type} (k : string) (v : V) (dict : list (string * V)) :
  (length (dict_set k v dict) ≤ S (length dict))%nat.
Proof.
  induction dict as [|[k' v'] dict IH]; cbn [dict_set]; [done |].
  destruct (String.eqb k' k); simpl; lia.
Qed.

Lemma report_dates_step_inv (windows : bool) d (acc : list (string * Z)) :
  let result :=
    fold_left
      (fun report_dates entry =>
         let report := fst entry in
         if PyStr.endswith ".txt" report then
           let date := int_of_float (creation_date windows (snd entry)) in
           dict_set report date report_dates
         else report_dates)
      d acc in
  (NoDup (fst <$> acc) → NoDup (fst <$> result))
  ∧ (∀ item, item ∈ result →
       item ∈ acc ∨ ∃ entry, entry ∈ d ∧ is_report entry ∧ item = stamped windows entry)
  ∧ (∀ name, name ∈ fst <$> acc → name ∈ fst <$> result)
  ∧ (∀ entry, entry ∈ d → is_report entry → fst entry ∈ fst <$> result)
  ∧ (length result ≤ length acc + length (filter is_report d))%nat.
Proof.
  revert acc. induction d as [|e d IH]; intros acc; cbn [fold_left].
  - cbv zeta. split; [done |]. split; [by left |]. split; [done |].
    split; [by intros ? ?%elem_of_nil | simpl; lia].
  - cbv zeta. rewrite filter_cons.
    destruct (PyStr.endswith ".txt" (fst e)) eqn:He.
    + rewrite decide_True by exact He.
      specialize (IH (dict_set (fst e)
                        (int_of_float (creation_date windows (snd e))) acc)).
      cbv zeta in IH. destruct IH as (IH1 & IH2 & IH3 & IH4 & IH5).
      assert (fst e ∈ fst <$> dict_set (fst e)
                (int_of_float (creation_date windows (snd e))) acc) as Hkey.
      { rewrite dict_set_keys. case_decide; [done |].
        apply elem_of_app. right. by left. }
      split; [| split; [| split; [| split]]].
      * intros Hnd. apply IH1. rewrite dict_set_keys. case_decide; [done |].
        apply NoDup_app. split; [done |]. split; [| apply NoDup_singleton].
        by intros k Hk ->%list_elem_of_singleton.
      * intros item Hitem. destruct (IH2 item Hitem) as [Hin | (entry & Hin & Hrep & ->)].
        -- apply dict_set_elem_of in Hin as [-> | Hin]; [| by left].
           right. exists e. split; [left | by split].
        -- right. exists entry. split; [by right | by split].
      * intros name Hname. apply IH3. rewrite dict_set_keys.
        case_decide; [done |]. apply elem_of_app. by left.
      * intros entry [-> | Hin]%elem_of_cons Hrep; [by apply IH3 | by apply IH4].
      * pose proof (dict_set_length (fst e)
                      (int_of_float (creation_date windows (snd e))) acc).
        simpl. lia.
    + rewrite decide_False by (unfold is_report; congruence).
      specialize (IH acc). cbv zeta in IH. destruct IH as (IH1 & IH2 & IH3 & IH4 & IH5).
      split; [done |]. split; [| split; [done | split; [| done]]].
      * intros item Hitem. destruct (IH2 item Hitem) as [Hin | (entry & Hin & Hrep & ->)];
          [by left |]. right. exists entry. split; [by right | by split].
      * intros entry [-> | Hin]%elem_of_cons Hrep; [| by apply IH4].
        unfold is_report in Hrep. congruence.
Qed.

Lemma report_dates_inv (windows : bool) d :
  NoDup (fst <$> report_dates windows d)
  ∧ (∀ item, item ∈ report_dates windows d →
       ∃ entry, entry ∈ d ∧ is_report entry ∧ item = stamped windows entry)
  ∧ (∀ entry, entry ∈ d → is_report entry →
       fst entry ∈ fst <$> report_dates windows d)
  ∧ (length (report_dates windows d) ≤ length (filter is_report d))%nat.
Proof.
  destruct (report_dates_step_inv windows d []) as (H1 & H2 & _ & H4 & H5).
  split; [apply H1; constructor |]. split; [| split; [exact H4 | exact H5]].
  intros item Hitem. destruct (H2 item Hitem) as [Hnil | H]; [| exact H].
  by apply elem_of_nil in Hnil.
Qed.

Lemma insert_desc_stable (t : Z) x l :
  filter (fun y => snd y = t) (insert_desc x l)
  = filter (fun y => snd y = t) (x :: l).
Proof.
  induction l as [|y l IH]; [done |]. cbn [insert_desc].
  destruct (Z.ltb_spec (snd x) (snd y)) as [Hlt|_]; [| done].
  rewrite (filter_cons _ y), IH, !filter_cons.
  destruct (decide (snd y = t)), (decide (snd x = t)); try done. lia.
Qed.

Lemma try_remove_cases (removable : string → bool) d x :
  try_remove removable d x
  = if removable (fst x) then filter (fun entry => fst entry ≠ fst x) d else d.
Proof.
  destruct (removable (fst x)) eqn:Hr; [by apply try_remove_filter |].
  unfold try_remove, os_remove. by rewrite Hr.
Qed.

Lemma fold_try_remove_cases (removable : string → bool) l d :
  fold_left (try_remove removable) l d
  = filter (fun entry =>
              fst entry ∉ fst <$> filter (fun x => removable (fst x) = true) l) d.
Proof.
  revert d. induction l as [|x l IH]; intros d; cbn [fold_left].
  - symmetry. apply filter_all. intros e _. apply not_elem_of_nil.
  - rewrite IH, try_remove_cases, (filter_cons _ x).
    destruct (removable (fst x)) eqn:Hr.
    + rewrite decide_True by done. rewrite list_filter_filter.
      apply list_filter_iff. intros e. rewrite fmap_cons, not_elem_of_cons. tauto.
    + by rewrite decide_False by congruence.
Qed.

Lemma filter_fst_names (names : list string) d :
  fst <$> filter (fun entry => fst entry ∉ names) d
  = filter (fun name => name ∉ names) (fst <$> d).
Proof.
  induction d as [|e d IH]; [done |].
  rewrite fmap_cons, !filter_cons, <- IH.
  by destruct (decide (fst e ∉ names)).
Qed.

Lemma filter_none {A : Type} (P : A → Prop) `{!∀ a, Decision (P a)} (k : list A) :
  (∀ a, a ∈ k → ¬ P a) → filter P k = [].
Proof.
  induction k as [|a k IH]; intros Hnone; [done |].
  rewrite filter_cons_False by (apply Hnone; left).
  apply IH. intros b Hb. apply Hnone. by right.
Qed.

Lemma filter_comm {A : Type} (P Q : A → Prop) `{!∀ a, Decision (P a)}
    `{!∀ a, Decision (Q a)} (k : list A) :
  filter P (filter Q k) = filter Q (filter P k).
Proof. rewrite !list_filter_filter. apply list_filter_iff. tauto. Qed.

End RetentionMore.

(** X13. For every directory, the dict of [report_dates] has each key
    once; every item is a file of the directory whose name ends with
    ".txt", with its creation date cut to whole seconds; and every such
    file of the directory has its name among the keys. *)
Theorem report_dates_dict (windows : bool) (d : directory) :
  NoDup (fst <$> report_dates windows d)
  ∧ (∀ name date, (name, date) ∈ report_dates windows d →
       PyStr.endswith ".txt" name = true
       ∧ ∃ st, (name, st) ∈ d ∧ date = int_of_float (creation_date windows st))
  ∧ (∀ name st, (name, st) ∈ d → PyStr.endswith ".txt" name = true →
       name ∈ fst <$> report_dates windows d).
Proof.
  destruct (report_dates_inv windows d) as (H1 & H2 & H4 & _).
  split; [exact H1 |]. split.
  - intros name date Hin.
    destruct (H2 _ Hin) as ([name' st] & Hentry & Hrep & Heq).
    unfold stamped in Heq. simpl in Heq. injection Heq as -> ->.
    split; [exact Hrep | by exists st].
  - intros name st Hin Hrep. by apply (H4 (name, st)).
Qed.

(** X14. The sort of the retention pass returns the same items, the
    most recent first, and items with the same timestamp stay in the
    order they had. *)
Theorem sorted_desc_stable (items : list (string * Z)) :
  sorted_desc items ≡ₚ items
  ∧ StronglySorted not_older (sorted_desc items)
  ∧ (∀ t : Z, filter (fun x => snd x = t) (sorted_desc items)
              = filter (fun x => snd x = t) items).
Proof.
  split; [apply sorted_desc_perm |]. split; [apply sorted_desc_sorted |].
  intros t. induction items as [|x items IH]; [done |].
  cbn [sorted_desc foldr]. fold (sorted_desc items).
  by rewrite insert_desc_stable, !filter_cons, IH.
Qed.

(** X15. A deletion that fails does not stop the pass and leaves the
    file in place: for every directory, the directory after the pass is
    the directory before without the files the pass selected and the
    system let it delete. So every file that cannot be deleted and every
    file whose name does not end with ".txt" is still there, and nothing is
    added or reordered. *)
Theorem retention_failures (windows : bool) (removable : string → bool)
    (d : directory) :
  retention windows removable d
  = filter (fun entry =>
      fst entry ∉ fst <$> filter (fun x => removable (fst x) = true)
                            (retention_doomed windows d)) d
  ∧ retention windows removable d `sublist_of` d
  ∧ (∀ entry, entry ∈ d → removable (fst entry) = false →
       entry ∈ retention windows removable d)
  ∧ (∀ entry, entry ∈ d → ¬ is_report entry →
       entry ∈ retention windows removable d).
Proof.
  assert (retention windows removable d
          = filter (fun entry =>
              fst entry ∉ fst <$> filter (fun x => removable (fst x) = true)
                                    (retention_doomed windows d)) d) as Hret.
  { apply fold_try_remove_cases. }
  split; [exact Hret |]. rewrite Hret.
  split; [apply sublist_filter |]. split.
  - intros entry Hin Hr. apply list_elem_of_filter. split; [| done].
    intros (x & Hfst & Hx)%list_elem_of_fmap.
    apply list_elem_of_filter in Hx as [Hx _]. congruence.
  - intros entry Hin Hrep. apply list_elem_of_filter. split; [| done].
    intros (x & Hfst & Hx)%list_elem_of_fmap.
    apply list_elem_of_filter in Hx as [_ Hx].
    assert (x ∈ report_dates windows d) as Hx'.
    { unfold retention_doomed in Hx. cbv zeta in Hx.
      rewrite <- (sorted_desc_perm (report_dates windows d)).
      rewrite <- (take_drop 10 (sorted_desc (report_dates windows d))).
      apply elem_of_app. by right. }
    destruct x as [name date]. simpl in Hfst.
    destruct (report_dates_inv windows d) as (_ & H2 & _).
    destruct (H2 _ Hx') as (entry' & _ & Hrep' & Heq).
    injection Heq as -> _. apply Hrep. unfold is_report in *. by rewrite Hfst.
Qed.

Lemma retention_failures_witness :
  ("LDUSER-20261001-060000.txt", sample_stat (17277888001 # 10))
  ∈ retention false (fun _ => false) sample_directory.
Proof.
  apply (proj1 (proj2 (proj2 (retention_failures false (fun _ => false)
                                 sample_directory)))).
  - apply list_elem_of_In. vm_compute. tauto.
  - reflexivity.
Defined.

Section RetentionShared.

(** With at most ten reports nothing is selected for deletion. *)
Lemma retention_noop (windows : bool) (removable : string → bool) (d : directory) :
  (length (filter is_report d) ≤ 10)%nat →
  retention windows removable d = d.
Proof.
  intros Hlen. unfold retention.
  assert (retention_doomed windows d = []) as ->; [| done].
  unfold retention_doomed. cbv zeta. apply drop_ge.
  rewrite (Permutation_length (sorted_desc_perm _)).
  destruct (report_dates_inv windows d) as (_ & _ & _ & H5). lia.
Qed.

(** With distinct names and reports that can be deleted, the reports left
    by the pass are the ones it keeps, and the other files are the same. *)
Lemma retention_kept_names (windows : bool) (removable : string → bool)
    (d : directory) :
  NoDup (fst <$> d) →
  (∀ e, e ∈ filter is_report d → removable (fst e) = true) →
  fst <$> filter is_report (retention windows removable d)
  ≡ₚ fst <$> retention_kept windows d
  ∧ filter (fun e => ¬ is_report e) (retention windows removable d)
    = filter (fun e => ¬ is_report e) d.
Proof.
  intros Hnames Hrem.
  set (kept := retention_kept windows d).
  set (doomed := retention_doomed windows d).
  pose proof (report_dates_reports windows d Hnames) as Hr.
  assert (kept ++ doomed ≡ₚ stamped windows <$> filter is_report d) as Hperm.
  { unfold kept, doomed, retention_kept, retention_doomed. cbv zeta.
    by rewrite take_drop, sorted_desc_perm, Hr. }
  assert (∀ x, x ∈ doomed → ∃ e, e ∈ filter is_report d ∧ fst x = fst e) as Hdoomed.
  { intros x Hx.
    assert (x ∈ kept ++ doomed) as Hin by (apply elem_of_app; by right).
    rewrite Hperm in Hin. apply list_elem_of_fmap in Hin as (e & -> & He).
    by exists e. }
  assert (retention windows removable d
          = filter (fun entry => fst entry ∉ fst <$> doomed) d) as Hret.
  { unfold retention. apply fold_try_remove.
    intros x Hx. destruct (Hdoomed x Hx) as (e & He & ->). by apply Hrem. }
  assert (NoDup (fst <$> (kept ++ doomed))) as Hnd.
  { rewrite Hperm, stamped_fst. eapply sublist_NoDup; [exact Hnames |].
    apply fmap_sublist, sublist_filter. }
  split.
  - rewrite Hret, filter_comm.
    rewrite filter_fst_names.
    rewrite <- (stamped_fst windows), <- Hperm, fmap_app, filter_app.
    rewrite fmap_app in Hnd. apply NoDup_app in Hnd as (_ & Hdisj & _).
    rewrite filter_all by exact Hdisj.
    rewrite filter_none by (intros a Ha Hna; by apply Hna).
    by rewrite app_nil_r.
  - rewrite Hret, filter_comm. apply filter_all.
    intros e [Hnr _]%list_elem_of_filter.
    intros (x & Hfst & Hx)%list_elem_of_fmap.
    destruct (Hdoomed x Hx) as (e' & [Hrep _]%list_elem_of_filter & Hfst').
    apply Hnr. unfold is_report in *. by rewrite Hfst, Hfst'.
Qed.

End RetentionShared.

(** X16. With at most ten files whose name ends with ".txt", the pass
    deletes nothing: the directory stays as it is. *)
Theorem retention_few_reports (windows : bool) (removable : string → bool)
    (d : directory) :
  (length (filter is_report d) ≤ 10)%nat →
  retention windows removable d = d
  ∧ retention_doomed windows d = [].
Proof.
  intros Hlen. split; [by apply retention_noop |].
  unfold retention_doomed. cbv zeta. apply drop_ge.
  rewrite (Permutation_length (sorted_desc_perm _)).
  destruct (report_dates_inv windows d) as (_ & _ & _ & H5). lia.
Qed.

Lemma retention_few_reports_witness :
  retention false (fun _ => true) (take 6 sample_directory) = take 6 sample_directory
  ∧ retention_doomed false (take 6 sample_directory) = [].
Proof. apply retention_few_reports. vm_compute. lia. Defined.

(** X17. When file names are distinct and the reports can be deleted,
    the directory after the pass has the ten most recent reports, or all
    of them if there were fewer; the files that are not reports are the
    same, in the same order. *)
Theorem retention_at_most_ten (windows : bool) (removable : string → bool)
    (d : directory) :
  NoDup (fst <$> d) →
  (∀ e, e ∈ filter is_report d → removable (fst e) = true) →
  length (filter is_report (retention windows removable d))
  = Nat.min 10 (length (filter is_report d))
  ∧ fst <$> filter is_report (retention windows removable d)
    ≡ₚ fst <$> retention_kept windows d
  ∧ filter (fun e => ¬ is_report e) (retention windows removable d)
    = filter (fun e => ¬ is_report e) d.
Proof.
  intros Hnames Hrem.
  destruct (retention_kept_names windows removable d Hnames Hrem) as [Hkept Hother].
  split; [| by split].
  rewrite <- (length_fmap fst), Hkept, length_fmap.
  unfold retention_kept. rewrite length_take.
  rewrite (Permutation_length (sorted_desc_perm _)).
  by rewrite (report_dates_reports windows d Hnames), length_fmap.
Qed.

Lemma retention_at_most_ten_witness :
  length (filter is_report (retention false (fun _ => true) sample_directory))
  = Nat.min 10 (length (filter is_report sample_directory))
  ∧ fst <$> filter is_report (retention false (fun _ => true) sample_directory)
    ≡ₚ fst <$> retention_kept false sample_directory
  ∧ filter (fun e => ¬ is_report e) (retention false (fun _ => true) sample_directory)
    = filter (fun e => ¬ is_report e) sample_directory.
Proof.
  apply (retention_at_most_ten false (fun _ => true) sample_directory).
  - apply (bool_decide_unpack _). by vm_compute.
  - reflexivity.
Defined.

(** X18. Under the same conditions, a second pass right after the first
    deletes nothing more. *)
Theorem retention_idempotent (windows : bool) (removable : string → bool)
    (d : directory) :
  NoDup (fst <$> d) →
  (∀ e, e ∈ filter is_report d → removable (fst e) = true) →
  retention windows removable (retention windows removable d)
  = retention windows removable d.
Proof.
  intros Hnames Hrem. apply retention_noop.
  destruct (retention_kept_names windows removable d Hnames Hrem) as [Hkept _].
  rewrite <- (length_fmap fst), Hkept, length_fmap.
  unfold retention_kept. rewrite length_take. lia.
Qed.

Lemma retention_idempotent_witness :
  retention false (fun _ => true) (retention false (fun _ => true) sample_directory)
  = retention false (fun _ => true) sample_directory.
Proof.
  apply (retention_idempotent false (fun _ => true) sample_directory).
  - apply (bool_decide_unpack _). by vm_compute.
  - reflexivity.
Defined.

(** ** Reading back a derived year *)

Section RoundTrip.

Implicit Types (s : string) (x : N).

Lemma pretty_N_char_digit x :
  (x < 10)%N →
  PyStr.isdigit (pretty_N_char x) = true
  ∧ PyInt.digit_value (pretty_N_char x) = Z.of_N x.
Proof.
  intros Hx.
  assert (x = 0 ∨ x = 1 ∨ x = 2 ∨ x = 3 ∨ x = 4 ∨ x = 5 ∨ x = 6 ∨ x = 7
          ∨ x = 8 ∨ x = 9)%N as Hcases by lia.
  repeat (destruct Hcases as [-> | Hcases]; [by split |]). by subst.
Qed.

Lemma pretty_N_go_digits x s :
  PyStr.all_chars PyStr.isdigit s = true →
  PyStr.all_chars PyStr.isdigit (pretty_N_go x s) = true
  ∧ PyInt.decimal_value (pretty_N_go x s)
    = Z.of_N x * 10 ^ Z.of_nat (String.length s) + PyInt.decimal_value s.
Proof.
  revert s. induction (N.lt_wf_0 x) as [x _ IH]; intros s Hs.
  assert (x = 0 ∨ 0 < x)%N as [->|Hpos] by lia.
  - rewrite pretty_N_go_0. split; [done |].
    change (Z.of_N 0) with 0. lia.
  - rewrite pretty_N_go_step by done.
    destruct (pretty_N_char_digit (x `mod` 10)%N) as [Hd Hv];
      [by apply N.mod_lt |].
    destruct (IH (x `div` 10)%N) with (s := String (pretty_N_char (x `mod` 10)) s)
      as [IHd IHv].
    + by apply N.div_lt.
    + simpl. by rewrite Hd, Hs.
    + split; [exact IHd |]. rewrite IHv.
      unfold PyInt.decimal_value. cbn [PyInt.decimal_from String.length].
      rewrite (decimal_from_acc (10 * 0 + _)), Hv.
      rewrite Nat2Z.inj_succ, Z.pow_succ_r by lia.
      pose proof (N.div_mod x 10) as Hdm.
      assert (Z.of_N x = 10 * Z.of_N (x `div` 10) + Z.of_N (x `mod` 10)) as ->
        by lia.
      lia.
Qed.

Lemma pretty_N_go_not_empty x s : s ≠ "" → pretty_N_go x s ≠ "".
Proof.
  revert s. induction (N.lt_wf_0 x) as [x _ IH]; intros s Hs.
  assert (x = 0 ∨ 0 < x)%N as [->|Hpos] by lia.
  - by rewrite pretty_N_go_0.
  - rewrite pretty_N_go_step by done. apply IH; [by apply N.div_lt | done].
Qed.

Lemma pretty_N_go_length (k : nat) x s :
  Z.of_N x < 10 ^ Z.of_nat k →
  (String.length (pretty_N_go x s) ≤ k + String.length s)%nat.
Proof.
  revert x s. induction k as [|k IH]; intros x s Hx.
  - assert (x = 0%N) as -> by (change (10 ^ Z.of_nat 0) with 1 in Hx; lia).
    by rewrite pretty_N_go_0.
  - assert (x = 0 ∨ 0 < x)%N as [->|Hpos] by lia.
    + rewrite pretty_N_go_0. lia.
    + rewrite pretty_N_go_step by done.
      etrans; [apply IH |].
      * rewrite Nat2Z.inj_succ, Z.pow_succ_r in Hx by lia.
        rewrite N2Z.inj_div. change (Z.of_N 10) with 10.
        apply Z.div_lt_upper_bound; lia.
      * simpl. lia.
Qed.

(** The numeral of a positive number: digits only, at least one, the
    number is their value, and a number below the [k]th power of ten has
    at most [k] of them. *)
Lemma pretty_positive_digits (p : positive) :
  pretty (Z.pos p) ≠ ""
  ∧ PyStr.all_chars PyStr.isdigit (pretty (Z.pos p)) = true
  ∧ PyInt.decimal_value (pretty (Z.pos p)) = Z.pos p
  ∧ (∀ k : nat, Z.pos p < 10 ^ Z.of_nat k →
       (String.length (pretty (Z.pos p)) ≤ k)%nat).
Proof.
  change (pretty (Z.pos p)) with (pretty_N_go (N.pos p) "").
  destruct (pretty_N_go_digits (N.pos p) "") as [Hd Hv]; [done |].
  split; [| split; [exact Hd | split]].
  - rewrite pretty_N_go_step by lia. by apply pretty_N_go_not_empty.
  - rewrite Hv.
    change (PyInt.decimal_value "") with 0.
    change (Z.of_nat (String.length "")) with 0.
    change (Z.of_N (N.pos p)) with (Z.pos p).
    rewrite Z.pow_0_r. lia.
  - intros k Hk.
    pose proof (pretty_N_go_length k (N.pos p) "" Hk) as Hlen.
    simpl in Hlen. lia.
Qed.

(** [int(str(n))] is [n], for every [n] that [str] writes. *)
Lemma parse_to_str (n : Z) :
  PyInt.too_long n = false → PyInt.parse (PyInt.to_str n) = Some n.
Proof.
  intros Hlong. apply too_long_false in Hlong. unfold PyInt.to_str.
  destruct n as [|p|p].
  - reflexivity.
  - destruct (pretty_positive_digits p) as (Hne & Hd & Hv & Hlen).
    rewrite parse_decimal, Hv; [done | done | done |].
    apply Hlen. lia.
  - destruct (pretty_positive_digits p) as (Hne & Hd & Hv & Hlen).
    change (pretty (Z.neg p)) with (String "-" (pretty (Z.pos p))).
    rewrite parse_negative, Hv; [done | done | done |].
    apply Hlen. lia.
Qed.

End RoundTrip.

(** X19. With an empty provided year and a grade that [int] reads as
    [g], when the year derived from it is within the limit of [str], the
    string [get_grad_year] returns is a numeral that [int] reads back as
    the current year plus [12 - g]: the field written to the file is that
    number, for grades above 12 and negative grades too. *)
Theorem get_grad_year_reads_back (curr_year : Z) (grade : string) (g : Z) :
  PyInt.parse grade = Some g →
  PyInt.too_long (curr_year + (12 - g)) = false →
  ∃ grad_year, get_grad_year curr_year "" grade = Ok grad_year
               ∧ PyInt.parse grad_year = Some (curr_year + (12 - g)).
Proof.
  intros Hg Hlong. exists (PyInt.to_str (curr_year + (12 - g))).
  split; [by apply get_grad_year_parsed | by apply parse_to_str].
Qed.

Lemma get_grad_year_reads_back_witness :
  ∃ grad_year, get_grad_year 2026 "" "-1" = Ok grad_year
               ∧ PyInt.parse grad_year = Some (2026 + (12 - -1)).
Proof.
  apply (get_grad_year_reads_back 2026 "-1" (-1)); vm_compute; reflexivity.
Defined.

(** ** Lines of a block, and lookups in the dict of reports *)

Section LineFacts.

Lemma field_line_one_line (field value : string) :
  PyStr.count PyStr.LF field = 0%nat →
  PyStr.count PyStr.LF (PyStr.rstrip value) = 0%nat →
  PyStr.count PyStr.LF (field_line field value) = 1%nat.
Proof.
  intros Hf Hv. unfold field_line.
  destruct (has_marker field); rewrite !count_app, ?Hf, ?Hv; reflexivity.
Qed.

Lemma record_text_lines (record : list (string * string)) :
  Forall (fun item => PyStr.count PyStr.LF (fst item) = 0%nat
                      ∧ PyStr.count PyStr.LF (PyStr.rstrip (snd item)) = 0%nat)
    record →
  PyStr.count PyStr.LF (record_text record) = length record.
Proof.
  induction 1 as [|[field value] record [Hf Hv] _ IH]; [done |].
  cbn [record_text length]. rewrite count_app, IH.
  by rewrite (field_line_one_line field value Hf Hv).
Qed.

Lemma dict_get_elem_of {V : Type} (k : string) (v : V) (dict : list (string * V)) :
  NoDup (fst <$> dict) → (k, v) ∈ dict → dict_get k dict = Some v.
Proof.
  induction dict as [|[k' v'] dict IH]; intros Hnd Hin.
  - by apply elem_of_nil in Hin.
  - rewrite fmap_cons in Hnd. apply NoDup_cons in Hnd as [Hk' Hnd].
    cbn [dict_get]. apply elem_of_cons in Hin as [[= <- <-] | Hin].
    + by rewrite String.eqb_refl.
    + destruct (String.eqb_spec k' k) as [->|_]; [| by apply IH].
      exfalso. apply Hk'. apply list_elem_of_fmap. by exists (k, v).
Qed.

End LineFacts.

(** X20. The block of a record that is built has exactly 31 lines (the
    two header lines, one line for each of the 28 fields, one empty line),
    provided no value of the record has a line feed left once its trailing
    whitespace is stripped. *)
Theorem record_block_lines (config : gmap string string) (curr_year : Z)
    (row : gmap string string) (record : list (string * string)) :
  build_record config curr_year row = Ok record →
  Forall (fun item => PyStr.count PyStr.LF (PyStr.rstrip (snd item)) = 0%nat)
    record →
  PyStr.count PyStr.LF (record_block record) = 31%nat.
Proof.
  intros H Hvalues.
  apply build_record_inv in H as (_ & _ & _ & _ & Htags & _).
  assert (Forall (fun tag => PyStr.count PyStr.LF tag = 0%nat) (map fst record))
    as Hnames.
  { rewrite Htags. repeat constructor. }
  assert (length record = 28%nat) as Hlen.
  { by rewrite <- (length_map fst), Htags. }
  unfold record_block. rewrite !count_app, record_text_lines, Hlen; [done |].
  clear Htags Hlen. induction record as [|item record IH]; [constructor |].
  apply Forall_cons in Hvalues as [Hv Hvalues].
  cbn [map] in Hnames. apply Forall_cons in Hnames as [Hn Hnames].
  constructor; [by split | by apply IH].
Qed.

Lemma record_block_lines_witness :
  PyStr.count PyStr.LF (record_block sample_record) = 31%nat.
Proof.
  apply (record_block_lines sample_config 2026 sample_row sample_record).
  - vm_compute. reflexivity.
  - repeat constructor.
Defined.

(** X21. When the file names of a directory are distinct, looking up the
    name of a file with the suffix ".txt" in the dict of [report_dates]
    gives the creation date of that file in whole seconds; a name without
    the suffix is not a key. *)
Theorem report_dates_lookup (windows : bool) (d : directory)
    (name : string) (st : stat_result) :
  NoDup (fst <$> d) → (name, st) ∈ d →
  dict_get name (report_dates windows d)
  = if PyStr.endswith ".txt" name
    then Some (int_of_float (creation_date windows st))
    else None.
Proof.
  intros Hnames Hin.
  destruct (report_dates_inv windows d) as (Hnd & Hitems & _).
  destruct (PyStr.endswith ".txt" name) eqn:Hsuffix.
  - apply dict_get_elem_of; [exact Hnd |].
    rewrite (report_dates_reports windows d Hnames).
    apply list_elem_of_fmap. exists (name, st). split; [done |].
    by apply list_elem_of_filter.
  - destruct (dict_get name (report_dates windows d)) as [date|] eqn:Hget; [| done].
    exfalso.
    assert (∃ item, item ∈ report_dates windows d ∧ fst item = name)
      as ([name' date'] & Hitem & Hname).
    { clear -Hget. induction (report_dates windows d) as [|[k v] dict IH];
        [done |].
      cbn [dict_get] in Hget. destruct (String.eqb_spec k name) as [->|_].
      - exists (name, v). split; [left | done].
      - destruct (IH Hget) as (item & Hitem & Hfst).
        exists item. split; [by right | done]. }
    simpl in Hname. subst name'.
    destruct (Hitems _ Hitem) as (entry & _ & Hrep & Heq).
    injection Heq as Hfst _. unfold is_report in Hrep. congruence.
Qed.

Lemma report_dates_lookup_witness :
  dict_get "symphony.log" (report_dates false sample_directory) = None.
Proof.
  apply (report_dates_lookup false sample_directory "symphony.log"
           (sample_stat (17290000000 # 10))).
  - apply (bool_decide_unpack _). by vm_compute.
  - apply list_elem_of_In. vm_compute. tauto.
Defined.

